(** * mongoposter: the polling monitor of [mongodb_monitor.py]

    A shallow embedding of [MongoDBPollingMonitor] and
    [EnhancedPollingMonitor]: text normalisation, payload extraction from
    loosely typed documents, the seen-set filter, the poll cycle and the
    statistics of the enhanced monitor.

    Conventions.
    - A Python [str] is a list of Unicode code points ([list N]).
    - A Python [dict] is an insertion-ordered association list; iteration
      ([items()]) follows the list, lookup takes the first binding.
    - [set] is stdpp's [gset].
    - Calls into the outside world (the store, the clipboard, the clock) are
      inputs of the functions that make them. *)

From Stdlib Require Import ZArith NArith List Bool Lia Ascii String DecimalString Sorted
  Permutation.
From stdpp Require Import base decidable gmap sorting.

Set Warnings "-clear-no-such-hyp,-register-all".
Import ListNotations.

Local Open Scope list_scope.

(** ** Python strings *)

Module PyStr.

Definition char := N.
Definition str := list char.

(** A literal of ASCII characters as a [str]. *)
Definition u (s : string) : str :=
  List.map N_of_ascii (list_ascii_of_string s).

Definition LF : char := 10%N.
Definition CR : char := 13%N.
Definition TAB : char := 9%N.

(** [str.splitlines] breaks at these code points (and at CR LF as one). *)
Definition is_linebreak (c : char) : bool :=
  List.existsb (N.eqb c)
    [0x0A; 0x0B; 0x0C; 0x0D; 0x1C; 0x1D; 0x1E; 0x85; 0x2028; 0x2029]%N.

(** [str.rstrip()] without argument strips the code points for which
    [str.isspace] holds. *)
Definition is_space (c : char) : bool :=
  ((0x09 <=? c) && (c <=? 0x0D) || (0x1C <=? c) && (c <=? 0x20)
   || (c =? 0x85) || (c =? 0xA0) || (c =? 0x1680)
   || (0x2000 <=? c) && (c <=? 0x200A)
   || (c =? 0x2028) || (c =? 0x2029) || (c =? 0x202F) || (c =? 0x205F)
   || (c =? 0x3000))%N.

(** [text.splitlines()]: [cur] is the current line, reversed.  A line break
    closes the current line; CR directly followed by LF is one break; the
    text after the last break is a line only when it is not empty. *)
Fixpoint splitlines_from (cur : str) (text : str) : list str :=
  match text with
  | [] => match cur with [] => [] | _ => [rev cur] end
  | c :: rest =>
      if is_linebreak c then
        rev cur ::
          (if N.eqb c CR then
             match rest with
             | c' :: rest' =>
                 if N.eqb c' LF then splitlines_from [] rest'
                 else splitlines_from [] rest
             | [] => splitlines_from [] rest
             end
           else splitlines_from [] rest)
      else splitlines_from (c :: cur) rest
  end.

Definition splitlines (text : str) : list str := splitlines_from [] text.

Fixpoint drop_spaces (s : str) : str :=
  match s with
  | c :: rest => if is_space c then drop_spaces rest else s
  | [] => []
  end.

(** [line.rstrip()]: scan from the end while the character is a space. *)
Definition rstrip (line : str) : str := rev (drop_spaces (rev line)).

(** [sep.join(parts)] *)
Fixpoint join (sep : str) (parts : list str) : str :=
  match parts with
  | [] => []
  | [p] => p
  | p :: ps => p ++ sep ++ join sep ps
  end.

(** [startswith] *)
Fixpoint startswith (s prefix : str) : bool :=
  match prefix, s with
  | [], _ => true
  | p :: ps, c :: cs => N.eqb p c && startswith cs ps
  | _ :: _, [] => false
  end.

Definition str_eqb (a b : str) : bool := bool_decide (a = b).

End PyStr.
Import PyStr.

(** ** [preserve_code_formatting] *)

(** The loop of the source: [formatted_lines.append(line.rstrip())] for each
    line, in order. *)
Definition formatted_lines_of (lines : list str) : list str :=
  fold_left (fun formatted_lines line => formatted_lines ++ [rstrip line])
            lines [].

Definition preserve_code_formatting (text : str) : str :=
  match text with
  | [] => []
  | _ => join [LF] (formatted_lines_of (splitlines text))
  end.

(** The sentence of the specification: split, strip the end of each line,
    join with one newline. *)
Definition normalize_spec (text : str) : str :=
  join [LF] (List.map rstrip (splitlines text)).

(** ** Documents *)

(** The values a stored document can hold.  (Floating-point numbers are left
    out.)  [VDate] is a [datetime], in microseconds. *)
Inductive value :=
| VNone
| VBool (b : bool)
| VInt (n : Z)
| VStr (s : str)
| VDate (t : Z)
| VObjectId (oid : Z)
| VList (elems : list value)
| VDict (entries : list (str * value)).

Definition dict := list (str * value).

(** Python truthiness: [if value:] *)
Definition truthy (v : value) : bool :=
  match v with
  | VNone => false
  | VBool b => b
  | VInt n => negb (Z.eqb n 0)
  | VStr s => match s with [] => false | _ => true end
  | VDate _ => true
  | VObjectId _ => true
  | VList elems => match elems with [] => false | _ => true end
  | VDict entries => match entries with [] => false | _ => true end
  end.

(** [if text:] for an [Optional[str]] *)
Definition truthy_text (t : option str) : bool :=
  match t with
  | Some (_ :: _) => true
  | _ => false
  end.

(** [d[key]] / [key in d] *)
Fixpoint dict_get (d : dict) (key : str) : option value :=
  match d with
  | [] => None
  | (k, v) :: rest => if str_eqb k key then Some v else dict_get rest key
  end.

(** A stored document: the store gives every document an [_id] (an ObjectId,
    read as the 96-bit number it encodes); [fields] are its other fields in
    insertion order. *)
Record document := { _id : Z; fields : dict }.

(** The document as the Python dict the driver returns. *)
Definition items (doc : document) : dict :=
  (u "_id", VObjectId (_id doc)) :: fields doc.

(** ** [extract_text_content] *)

Definition text_fields : list str :=
  [u "text"; u "content"; u "code"; u "message"; u "body"; u "data";
   u "value"; u "snippet"].

Section Extraction.

(** [str(v)] for a value that is not a string (the rendering of numbers,
    dates, lists and dicts is Python's, and is not fixed here). *)
Variable py_repr : value -> str.

Definition py_str (v : value) : str :=
  match v with
  | VStr s => s
  | _ => py_repr v
  end.

(** The first loop: [for field in text_fields]. *)
Fixpoint first_text_field (fields : list str) (document : dict)
  : option str :=
  match fields with
  | [] => None
  | field :: more =>
      match dict_get document field with
      | Some v =>
          if truthy v then Some (preserve_code_formatting (py_str v))
          else first_text_field more document
      | None => first_text_field more document
      end
  end.

(** The second loop: [for key, value in document.items()], with the
    recursive call on nested dicts given as [extract]. *)
Definition scan_items (extract : value -> option str)
  : dict -> option str :=
  fix scan (its : dict) : option str :=
    match its with
    | [] => None
    | (key, value) :: rest =>
        if startswith key (u "_") then scan rest
        else
          match value with
          | VStr s =>
              if (10 <? length s)%nat then Some (preserve_code_formatting s)
              else scan rest
          | VDict _ =>
              let nested_text := extract value in
              if truthy_text nested_text then nested_text else scan rest
          | _ => scan rest
          end
    end.

(** The method applied to the dict inside [v]. *)
Fixpoint extract_of_value (v : value) : option str :=
  match v with
  | VDict document =>
      match first_text_field text_fields document with
      | Some text => Some text
      | None => scan_items extract_of_value document
      end
  | _ => None
  end.

Definition extract_text_content (document : dict) : option str :=
  extract_of_value (VDict document).

End Extraction.

Local Open Scope Z_scope.

(** ** The store *)

(** A query is a dict from field name to condition: [{field: v}],
    [{field: {'$gt': v}}] or [{field: {'$exists': True}}]. *)
Inductive condition :=
| Eq (v : value)
| Gt (v : value)
| Exists.

Definition query := list (str * condition).

(** [query[key] = c]: an existing key keeps its place, a new one goes
    last. *)
Fixpoint query_set (q : query) (key : str) (c : condition) : query :=
  match q with
  | [] => [(key, c)]
  | (k, c0) :: rest =>
      if str_eqb k key then (k, c) :: rest else (k, c0) :: query_set rest key c
  end.

(** [.sort('_id', -1)]: insertion sort, greatest [_id] first. *)
Fixpoint insert_desc (doc : document) (sorted : list document)
  : list document :=
  match sorted with
  | [] => [doc]
  | d :: rest =>
      if (_id d <=? _id doc)%Z then doc :: sorted
      else d :: insert_desc doc rest
  end.

Definition sort_desc (docs : list document) : list document :=
  fold_right insert_desc [] docs.

(** ** The monitor *)

Inductive monitor_class := MongoDBPollingMonitor | EnhancedPollingMonitor.

(** The [stats] dict of the enhanced monitor; [runtime_seconds] is a key
    that [get_stats] adds (here the difference of the two clock values, in
    microseconds). *)
Record stats_dict := {
  documents_processed : Z;
  texts_copied : Z;
  start_time : option Z;
  runtime_seconds : option Z
}.

(** What [process_document] logs. *)
Inductive event :=
| Processing (id : Z)
| Delivered (id : Z) (text : str)
| DeliveryFailed (id : Z) (text : str)
| NoText (id : Z).

(** The monitor object, and below the line the outside world as the monitor
    has changed it: the clipboard, the number of calls of [pyperclip.copy]
    so far, and the log. *)
Record monitor := {
  class : monitor_class;
  is_monitoring : bool;
  last_check_time : option Z;
  processed_ids : gset Z;
  filters : dict;
  stats : stats_dict;
  (* ------------------------------------------------------------ *)
  clipboard : option str;
  copy_calls : nat;
  log : list event
}.

Definition set_is_monitoring (b : bool) (m : monitor) : monitor :=
  {| class := class m; is_monitoring := b;
     last_check_time := last_check_time m; processed_ids := processed_ids m;
     filters := filters m; stats := stats m; clipboard := clipboard m;
     copy_calls := copy_calls m; log := log m |}.

Definition set_last_check_time (t : option Z) (m : monitor) : monitor :=
  {| class := class m; is_monitoring := is_monitoring m;
     last_check_time := t; processed_ids := processed_ids m;
     filters := filters m; stats := stats m; clipboard := clipboard m;
     copy_calls := copy_calls m; log := log m |}.

Definition set_processed_ids (ids : gset Z) (m : monitor) : monitor :=
  {| class := class m; is_monitoring := is_monitoring m;
     last_check_time := last_check_time m; processed_ids := ids;
     filters := filters m; stats := stats m; clipboard := clipboard m;
     copy_calls := copy_calls m; log := log m |}.

Definition set_stats (st : stats_dict) (m : monitor) : monitor :=
  {| class := class m; is_monitoring := is_monitoring m;
     last_check_time := last_check_time m; processed_ids := processed_ids m;
     filters := filters m; stats := st; clipboard := clipboard m;
     copy_calls := copy_calls m; log := log m |}.

Definition add_log (e : event) (m : monitor) : monitor :=
  {| class := class m; is_monitoring := is_monitoring m;
     last_check_time := last_check_time m; processed_ids := processed_ids m;
     filters := filters m; stats := stats m; clipboard := clipboard m;
     copy_calls := copy_calls m; log := log m ++ [e] |}.

(** One call of [pyperclip.copy]: the clipboard changes when it succeeds. *)
Definition pyperclip_called (ok : bool) (text : str) (m : monitor) : monitor :=
  {| class := class m; is_monitoring := is_monitoring m;
     last_check_time := last_check_time m; processed_ids := processed_ids m;
     filters := filters m; stats := stats m;
     clipboard := if ok then Some text else clipboard m;
     copy_calls := S (copy_calls m); log := log m |}.

(** [__init__] of the two classes. *)
Definition new_stats : stats_dict :=
  {| documents_processed := 0; texts_copied := 0; start_time := None;
     runtime_seconds := None |}.

Definition new_monitor (c : monitor_class) (flt : dict) : monitor :=
  {| class := c; is_monitoring := false; last_check_time := None;
     processed_ids := ∅; filters := flt; stats := new_stats;
     clipboard := None; copy_calls := 0; log := [] |}.

(** What one poll cycle reads from outside: the collection at the time of
    the query ([None]: the store raises), and the clock at the end of the
    cycle. *)
Record world := { collection : option (list document); utcnow : Z }.

(** One call of [start_monitoring]: whether [connect] succeeds, the clock
    values read at the start, and the cycles that run before the stop. *)
Record session := {
  connects : bool;
  clock_at_start : Z;
  clock_at_connect : Z;
  cycles : list world
}.

Definition five_seconds : Z := 5000000.

Definition timestamp_fields : list str :=
  [u "timestamp"; u "created_at"; u "createdAt"; u "date_created"; u "_id"].

(** The filter loop of [get_new_documents]. *)
Fixpoint filter_processed (new_documents filtered_docs : list document)
  (ids : gset Z) : list document * gset Z :=
  match new_documents with
  | [] => (filtered_docs, ids)
  | doc :: more =>
      let doc_id := _id doc in
      if bool_decide (doc_id ∈ ids) then filter_processed more filtered_docs ids
      else filter_processed more (filtered_docs ++ [doc]) ({[doc_id]} ∪ ids)
  end.

Section Monitor.

(** The libraries the monitor calls. *)
Variable py_repr : value -> str.
(** [ObjectId.from_datetime] *)
Variable ObjectId_from_datetime : Z -> Z.
(** Whether a stored document satisfies a query, as the store decides. *)
Variable query_matches : query -> document -> bool.
(** Whether the [n]-th call of [pyperclip.copy], with this text, returns
    (rather than raises). *)
Variable pyperclip_copy : nat -> str -> bool.

(** [collection.find_one(q)] *)
Definition find_one (q : query) (coll : list document) : option document :=
  List.find (query_matches q) coll.

(** [collection.find(q).sort('_id', -1).limit(100)] *)
Definition find_sorted_limited (q : query) (coll : list document)
  : list document :=
  firstn 100 (sort_desc (List.filter (query_matches q) coll)).

Definition copy_to_clipboard (text : str) (m : monitor) : bool * monitor :=
  let ok := pyperclip_copy (copy_calls m) text in
  (ok, pyperclip_called ok text m).

(** The loop over [timestamp_fields] in the base [get_new_documents]. *)
Fixpoint choose_query (tfields : list str) (coll : list document)
  (last : Z) (q : query) : query :=
  match tfields with
  | [] => q
  | field :: more =>
      if str_eqb field (u "_id") then
        let last_object_id := ObjectId_from_datetime last in
        [(u "_id", Gt (VObjectId last_object_id))]
      else
        match find_one [(field, Exists)] coll with
        | Some _ => [(field, Gt (VDate last))]
        | None => choose_query more coll last q
        end
  end.

Definition base_query (coll : list document) (m : monitor) : query :=
  match last_check_time m with
  | Some last => choose_query timestamp_fields coll last []
  | None => []
  end.

Definition enhanced_query (m : monitor) : query :=
  let q := List.map (fun kv => (fst kv, Eq (snd kv))) (filters m) in
  match last_check_time m with
  | Some last =>
      query_set q (u "_id") (Gt (VObjectId (ObjectId_from_datetime last)))
  | None => q
  end.

Definition fetch_and_filter (q : query) (coll : list document)
  (m : monitor) : list document * monitor :=
  let new_documents := find_sorted_limited q coll in
  let '(filtered_docs, ids) :=
    filter_processed new_documents [] (processed_ids m) in
  (filtered_docs, set_processed_ids ids m).

Definition base_get_new_documents (w : world) (m : monitor)
  : list document * monitor :=
  match collection w with
  | Some coll => fetch_and_filter (base_query coll m) coll m
  | None => ([], m)
  end.

Definition enhanced_get_new_documents (w : world) (m : monitor)
  : list document * monitor :=
  match collection w with
  | Some coll => fetch_and_filter (enhanced_query m) coll m
  | None => ([], m)
  end.

Definition base_process_document (doc : document) (m : monitor) : monitor :=
  let m := add_log (Processing (_id doc)) m in
  let text_content := extract_text_content py_repr (items doc) in
  match text_content with
  | Some (c :: cs) =>
      let text := c :: cs in
      let '(ok, m) := copy_to_clipboard text m in
      if ok then add_log (Delivered (_id doc) text) m
      else add_log (DeliveryFailed (_id doc) text) m
  | _ => add_log (NoText (_id doc)) m
  end.

Definition enhanced_process_document (doc : document) (m : monitor)
  : monitor :=
  let m := base_process_document doc m in
  let st := stats m in
  let st := {| documents_processed := documents_processed st + 1;
               texts_copied := texts_copied st;
               start_time := start_time st;
               runtime_seconds := runtime_seconds st |} in
  let text_content := extract_text_content py_repr (items doc) in
  let st :=
    if truthy_text text_content then
      {| documents_processed := documents_processed st;
         texts_copied := texts_copied st + 1;
         start_time := start_time st;
         runtime_seconds := runtime_seconds st |}
    else st in
  set_stats st m.

(** Method dispatch on the class of the object. *)
Definition get_new_documents (w : world) (m : monitor)
  : list document * monitor :=
  match class m with
  | MongoDBPollingMonitor => base_get_new_documents w m
  | EnhancedPollingMonitor => enhanced_get_new_documents w m
  end.

Definition process_document (doc : document) (m : monitor) : monitor :=
  match class m with
  | MongoDBPollingMonitor => base_process_document doc m
  | EnhancedPollingMonitor => enhanced_process_document doc m
  end.

(** The query of the class of the object, and what the store returns for
    it in this cycle. *)
Definition current_query (coll : list document) (m : monitor) : query :=
  match class m with
  | MongoDBPollingMonitor => base_query coll m
  | EnhancedPollingMonitor => enhanced_query m
  end.

Definition fetched (w : world) (m : monitor) : list document :=
  match collection w with
  | Some coll => find_sorted_limited (current_query coll m) coll
  | None => []
  end.

(** [for document in reversed(new_documents): self.process_document(...)] *)
Definition process_all (docs : list document) (m : monitor) : monitor :=
  fold_left (fun m doc => process_document doc m) docs m.

Definition poll_for_changes (w : world) (m : monitor) : monitor :=
  let '(new_documents, m) := get_new_documents w m in
  let m := process_all (rev new_documents) m in
  set_last_check_time (Some (utcnow w)) m.

Definition stop_monitoring (m : monitor) : monitor :=
  set_is_monitoring false m.

(** The cycles of the [while self.is_monitoring] loop that run. *)
Definition run_cycles (ws : list world) (m : monitor) : monitor :=
  fold_left (fun m w => poll_for_changes w m) ws m.

Definition base_start_monitoring (s : session) (m : monitor) : monitor :=
  if connects s then
    let m := set_is_monitoring true m in
    let m :=
      set_last_check_time (Some (clock_at_connect s - five_seconds)) m in
    let m := run_cycles (cycles s) m in
    stop_monitoring m
  else m.

Definition enhanced_start_monitoring (s : session) (m : monitor)
  : monitor :=
  let st := stats m in
  let m :=
    set_stats {| documents_processed := documents_processed st;
                 texts_copied := texts_copied st;
                 start_time := Some (clock_at_start s);
                 runtime_seconds := runtime_seconds st |} m in
  base_start_monitoring s m.

Definition start_monitoring (s : session) (m : monitor) : monitor :=
  match class m with
  | MongoDBPollingMonitor => base_start_monitoring s m
  | EnhancedPollingMonitor => enhanced_start_monitoring s m
  end.

(** The life of one monitor object: its sessions, one after the other. *)
Definition lifetime (ss : list session) (m : monitor) : monitor :=
  fold_left (fun m s => start_monitoring s m) ss m.

(** [get_stats], called when the clock shows [now]: the dict returned and
    the monitor (whose [stats] gains [runtime_seconds]). *)
Definition get_stats (now : Z) (m : monitor) : stats_dict * monitor :=
  let st := stats m in
  let st :=
    match start_time st with
    | Some t0 =>
        {| documents_processed := documents_processed st;
           texts_copied := texts_copied st;
           start_time := start_time st;
           runtime_seconds := Some (now - t0) |}
    | None => st
    end in
  (st, set_stats st m).

End Monitor.

(** ** What the log shows *)

Definition processing_id (e : event) : option Z :=
  match e with Processing id => Some id | _ => None end.

Definition delivered_id (e : event) : option Z :=
  match e with Delivered id _ => Some id | _ => None end.

(** The identifiers handed to [process_document], in order. *)
Definition processing_ids (l : list event) : list Z :=
  omap processing_id l.

(** The identifiers whose text reached the clipboard, in order. *)
Definition delivered_ids (l : list event) : list Z :=
  omap delivered_id l.

Definition delivered_text (e : event) : option str :=
  match e with Delivered _ text => Some text | _ => None end.

Definition delivered_texts (l : list event) : list str :=
  omap delivered_text l.

(** ** A small store for the examples *)

Fixpoint value_eqb (a b : value) : bool :=
  match a, b with
  | VNone, VNone => true
  | VBool x, VBool y => Bool.eqb x y
  | VInt x, VInt y => Z.eqb x y
  | VStr x, VStr y => str_eqb x y
  | VDate x, VDate y => Z.eqb x y
  | VObjectId x, VObjectId y => Z.eqb x y
  | VList xs, VList ys =>
      (fix all2 (xs ys : list value) : bool :=
         match xs, ys with
         | [], [] => true
         | x :: xs', y :: ys' => value_eqb x y && all2 xs' ys'
         | _, _ => false
         end) xs ys
  | VDict xs, VDict ys =>
      (fix all2 (xs ys : list (str * value)) : bool :=
         match xs, ys with
         | [], [] => true
         | (k, x) :: xs', (k', y) :: ys' =>
             str_eqb k k' && value_eqb x y && all2 xs' ys'
         | _, _ => false
         end) xs ys
  | _, _ => false
  end.

Definition value_gtb (a b : value) : bool :=
  match a, b with
  | VInt x, VInt y => (y <? x)%Z
  | VDate x, VDate y => (y <? x)%Z
  | VObjectId x, VObjectId y => (y <? x)%Z
  | _, _ => false
  end.

(** The plain reading of the three conditions, on top-level fields and
    between values of one type. *)
Definition plain_matches (q : query) (doc : document) : bool :=
  forallb (fun kc =>
             match dict_get (items doc) (fst kc), snd kc with
             | Some v, Eq v' => value_eqb v v'
             | Some v, Gt v' => value_gtb v v'
             | Some _, Exists => true
             | None, _ => false
             end) q.

(** An ObjectId starts with the seconds of its creation time (four bytes);
    [from_datetime] fills the other eight bytes with zeros. *)
Definition seconds_then_zeros (t : Z) : Z :=
  Z.shiftl (t / 1000000) 64.

Definition always_ok (n : nat) (text : str) : bool := true.
Definition never_ok (n : nat) (text : str) : bool := false.

Definition sample_text : str :=
  u "  a" ++ [LF] ++ [TAB] ++ u "b  " ++ [LF] ++ u "c" ++ [LF].

Definition sample_normalized : str :=
  u "  a" ++ [LF] ++ [TAB] ++ u "b" ++ [LF] ++ u "c".

(** [s] ends in a space character. *)
Definition ends_with_space (s : str) : bool :=
  match rev s with
  | c :: _ => is_space c
  | [] => false
  end.

Definition not_linebreak (c : char) : bool := negb (is_linebreak c).

(** ** Readings of the specification's words, and sample records *)

(** "Non-empty" in the plain sense: a value that is not null and not an
    empty string, list or record. *)
Definition is_empty_value (v : value) : bool :=
  match v with
  | VNone | VStr [] | VList [] | VDict [] => true
  | _ => false
  end.

(** The alias field holds nothing that the first loop accepts. *)
Definition no_payload_at (document : dict) (field : str) : bool :=
  match dict_get document field with
  | Some v => negb (truthy v)
  | None => true
  end.

Definition no_alias_payload (document : dict) : bool :=
  forallb (no_payload_at document) text_fields.

(** Step 2 of the specification on its own: the first string longer than
    ten characters among the fields whose name does not begin with "_". *)
Fixpoint first_long_string (document : dict) : option str :=
  match document with
  | [] => None
  | (key, v) :: rest =>
      if startswith key (u "_") then first_long_string rest
      else
        match v with
        | VStr s => if (10 <? length s)%nat then Some s
                    else first_long_string rest
        | _ => first_long_string rest
        end
  end.

(** A field over which the second loop passes on to the next one. *)
Definition passed_over (py_repr : value -> str) (kv : str * value) : bool :=
  startswith (fst kv) (u "_")
  || match snd kv with
     | VStr s => (length s <=? 10)%nat
     | VDict nested => negb (truthy_text (extract_text_content py_repr nested))
     | _ => true
     end.

(** [str] of the scalar values. *)
Definition plain_repr (v : value) : str :=
  match v with
  | VNone => u "None"
  | VBool true => u "True"
  | VBool false => u "False"
  | VInt n => u (NilZero.string_of_int (Z.to_int n))
  | _ => []
  end.

Definition code_message : dict :=
  [(u "code", VStr (u "x")); (u "message", VStr (u "y"))].

Definition message_code : dict :=
  [(u "message", VStr (u "y")); (u "code", VStr (u "x"))].

Definition zero_value_record : dict :=
  [(u "value", VInt 0); (u "snippet", VStr (u "s"))].

Definition long_string : str := u "this is a sufficiently long string".

Definition foo_long : dict := [(u "foo", VStr long_string)].
Definition foo_short : dict := [(u "foo", VStr (u "short"))].

Definition nested_before_long : dict :=
  [(u "meta", VDict [(u "text", VStr (u "x"))]); (u "foo", VStr long_string)].

Definition nested_note : str := u "a note kept inside the nested record".
Definition top_summary : str := u "a summary held by the record itself".

Definition details_before_summary : dict :=
  [(u "details", VDict [(u "note", VStr nested_note)]);
   (u "summary", VStr top_summary)].

Definition summary_before_details : dict :=
  [(u "summary", VStr top_summary);
   (u "details", VDict [(u "note", VStr nested_note)])].

(** Step 1 with "non-empty" in the plain sense: the value of the first
    alias field that is present and not empty. *)
Fixpoint first_nonempty_alias (fs : list str) (document : dict)
  : option value :=
  match fs with
  | [] => None
  | field :: more =>
      match dict_get document field with
      | Some v => if is_empty_value v then first_nonempty_alias more document
                  else Some v
      | None => first_nonempty_alias more document
      end
  end.

(** ** The poll cycle, read off *)

(** The documents that the filter loop lets through, given the seen-set. *)
Fixpoint admitted (docs : list document) (ids : gset Z) : list document :=
  match docs with
  | [] => []
  | doc :: more =>
      if bool_decide (_id doc ∈ ids) then admitted more ids
      else doc :: admitted more ({[_id doc]} ∪ ids)
  end.

Definition ids_of (docs : list document) : list Z := List.map _id docs.

Definition ge_id (a b : document) : Prop := _id b <= _id a.
Definition gt_id (a b : document) : Prop := _id b < _id a.

(** The four field names before ["_id"] in [timestamp_fields]. *)
Definition timestamp_names : list str :=
  [u "timestamp"; u "created_at"; u "createdAt"; u "date_created"].

(** The seen-set and the log agree: the identifiers handed to
    [process_document] are distinct, they are the seen-set, and the
    deliveries are among them, in the same order. *)
Definition seen_is_processed (m : monitor) : Prop :=
  NoDup (processing_ids (log m))
  /\ processed_ids m = list_to_set (processing_ids (log m))
  /\ delivered_ids (log m) `sublist_of` processing_ids (log m).

(** The number of documents the enhanced monitor counts for one call of
    [process_document]. *)
Definition counted (c : monitor_class) : Z :=
  match c with
  | MongoDBPollingMonitor => 0
  | EnhancedPollingMonitor => 1
  end.

(** From [m] to [m'] the class and the start time are kept, [texts_copied]
    does not go down, and [documents_processed] goes up by the number of
    calls of [process_document] that the log shows (for the enhanced
    monitor; the base monitor does not count). *)
Definition counters_follow (m m' : monitor) : Prop :=
  class m' = class m
  /\ start_time (stats m') = start_time (stats m)
  /\ texts_copied (stats m) <= texts_copied (stats m')
  /\ documents_processed (stats m')
       - counted (class m) * Z.of_nat (length (processing_ids (log m')))
     = documents_processed (stats m)
       - counted (class m) * Z.of_nat (length (processing_ids (log m))).

(** Some field of some document of the collection satisfies
    [{field: {'$exists': True}}]. *)
Definition some_document_has (query_matches : query -> document -> bool)
  (coll : list document) (field : str) : bool :=
  match List.find (query_matches [(field, Exists)]) coll with
  | Some _ => true
  | None => false
  end.

(** ** Sample collections and sessions *)

Definition doc (id : Z) (flds : dict) : document :=
  {| _id := id; fields := flds |}.

Definition docs_3_1_2 : list document :=
  [doc 3 [(u "code", VStr (u "c"))];
   doc 1 [(u "code", VStr (u "a"))];
   doc 2 [(u "code", VStr (u "b"))]].

(** Two identifiers made in the same second (second 10) by two writers. *)
Definition id_a : Z := Z.shiftl 10 64 + 255.
Definition id_b : Z := Z.shiftl 10 64 + 170.

Definition doc_a : document := doc id_a [(u "code", VStr (u "first"))].
Definition doc_b : document := doc id_b [(u "code", VStr (u "second"))].

(** A session started at second 10: the first cycle sees [doc_a]; [doc_b]
    is written before the second cycle. *)
Definition two_cycles : session :=
  {| connects := true; clock_at_start := 10000000;
     clock_at_connect := 10000000;
     cycles := [ {| collection := Some [doc_a]; utcnow := 10300000 |};
                 {| collection := Some [doc_a; doc_b]; utcnow := 12300000 |} ]
  |}.

Definition first_run : session :=
  {| connects := true; clock_at_start := 10000000;
     clock_at_connect := 10000000;
     cycles := [ {| collection := Some [doc_a]; utcnow := 10300000 |} ] |}.

Definition second_run : session :=
  {| connects := true; clock_at_start := 60000000;
     clock_at_connect := 60000000; cycles := [] |}.

(** A document as the web form stores it. *)
Definition webapp_snippet : document :=
  doc id_a [(u "name", VStr (u "n")); (u "code", VStr (u "print(1)"));
            (u "created_at", VDate 9000000); (u "updated_at", VDate 9000000)].

Definition doc_x : document := doc 1 [(u "code", VStr (u "x"))].
Definition doc_y : document := doc 2 [(u "code", VStr (u "y"))].
Definition doc_empty : document := doc 7 [(u "count", VInt 3)].

(** The clipboard is out of reach for the first call only. *)
Definition fails_first (n : nat) (text : str) : bool :=
  match n with
  | O => false
  | S _ => true
  end.

(** ** Further readings used by the properties of the whole code *)

(** A character that is the newline, or no line break at all. *)
Definition lf_or_plain (c : char) : bool := not_linebreak c || N.eqb c LF.

Definition no_trailing_space (line : str) : bool :=
  negb (ends_with_space line).

(** The characters of the lines and one more for each line. *)
Fixpoint lines_weight (lines : list str) : nat :=
  match lines with
  | [] => 0
  | l :: ls => S (length l) + lines_weight ls
  end.

(** The number of constructors of a value, to reason on nested records. *)
Fixpoint value_size (v : value) : nat :=
  match v with
  | VList elems =>
      S ((fix sum (l : list value) : nat :=
            match l with
            | [] => O
            | x :: r => (value_size x + sum r)%nat
            end) elems)
  | VDict entries =>
      S ((fix sum (l : list (str * value)) : nat :=
            match l with
            | [] => O
            | (_, x) :: r => (value_size x + sum r)%nat
            end) entries)
  | _ => 1%nat
  end.

(** The calls of [pyperclip.copy] that the log shows, by their texts. *)
Definition attempted_text (e : event) : option str :=
  match e with
  | Delivered _ text => Some text
  | DeliveryFailed _ text => Some text
  | _ => None
  end.

Definition attempted_texts (l : list event) : list str :=
  omap attempted_text l.

(** The clipboard holds the text delivered last. *)
Definition clipboard_follows (m : monitor) : Prop :=
  clipboard m = last (delivered_texts (log m)).

(** The counters of the enhanced monitor, read off the log (the base
    monitor leaves them at zero). *)
Definition stats_match (m : monitor) : Prop :=
  documents_processed (stats m)
  = counted (class m) * Z.of_nat (length (processing_ids (log m)))
  /\ texts_copied (stats m)
     = counted (class m) * Z.of_nat (length (attempted_texts (log m)))
  /\ (length (delivered_ids (log m)) <= length (attempted_texts (log m))
      <= length (processing_ids (log m)))%nat.

(** Where the cursor stands after the cycles [ws]. *)
Definition cursor_after (ws : list world) (before : option Z) : option Z :=
  match last ws with
  | Some w => Some (utcnow w)
  | None => before
  end.

(** A collection of 101 documents with the identifiers 1 to 101. *)
Definition many_docs : list document :=
  List.map (fun i => doc (Z.of_nat i) []) (seq 1 101).

(** The filters of [main]: only documents with [type = 'code']. *)
Definition main_filters : dict := [(u "type", VStr (u "code"))].

Definition outside_agrees (m : monitor) : Prop :=
  clipboard_follows m /\ stats_match m.

(** ** The upload form of [webapp/main.py] *)

(** [s.strip()]: space characters are removed at both ends. *)
Definition strip (s : str) : str := rstrip (drop_spaces s).

(** [request.form.get(key, '')] *)
Fixpoint form_get (form : list (str * str)) (key : str) : str :=
  match form with
  | [] => []
  | (k, v) :: rest => if str_eqb k key then v else form_get rest key
  end.

Inductive upload_response :=
| Uploaded (id : Z)                (* 200, with the identifier *)
| BadRequest (error : str)         (* 400 *)
| ServerError.                     (* 500 *)

(** [upload_code]: the response, and the document that the collection
    gains.  [clock1] and [clock2] are the two readings of the clock;
    [inserted_id] is what [insert_one] gives ([None]: it raises). *)
Definition upload_code (form : list (str * str)) (clock1 clock2 : Z)
  (inserted_id : option Z) : upload_response * option document :=
  let name := strip (form_get form (u "name")) in
  let code := strip (form_get form (u "code")) in
  match name with
  | [] => (BadRequest (u "Name is required"), None)
  | _ =>
      match code with
      | [] => (BadRequest (u "Code is required"), None)
      | _ =>
          let document :=
            [(u "name", VStr name); (u "code", VStr code);
             (u "created_at", VDate clock1); (u "updated_at", VDate clock2)]
          in
          match inserted_id with
          | Some id => (Uploaded id, Some {| _id := id; fields := document |})
          | None => (ServerError, None)
          end
      end
  end.

Definition sample_form : list (str * str) :=
  [(u "name", u " demo "); (u "code", u "  print(1)  ")].

(** From [m] to [m'] the log has grown by some events, the class is kept,
    and each counter has grown by what these events show: one document for
    each [Processing], one text for each call of [pyperclip.copy] (for the
    enhanced monitor; the base monitor does not count). *)
Definition tally (m m' : monitor) : Prop :=
  exists evs : list event,
    log m' = log m ++ evs
    /\ class m' = class m
    /\ documents_processed (stats m')
       = documents_processed (stats m)
         + counted (class m) * Z.of_nat (length (processing_ids evs))
    /\ texts_copied (stats m')
       = texts_copied (stats m)
         + counted (class m) * Z.of_nat (length (attempted_texts evs)).

(** The session [s] stopped before its first cycle. *)
Definition without_cycles (s : session) : session :=
  {| connects := connects s; clock_at_start := clock_at_start s;
     clock_at_connect := clock_at_connect s; cycles := [] |}.

(** * Properties *)

(** ** Text normalisation *)

Lemma formatted_lines_from (lines acc : list str) :
  fold_left (fun formatted_lines line => formatted_lines ++ [rstrip line])
            lines acc
  = acc ++ List.map rstrip lines.
Proof.
  revert acc. induction lines as [|l ls IH]; intros acc; simpl.
  - now rewrite app_nil_r.
  - rewrite IH, <- app_assoc. reflexivity.
Qed.

Lemma formatted_lines_map (lines : list str) :
  formatted_lines_of lines = List.map rstrip lines.
Proof. unfold formatted_lines_of. now rewrite formatted_lines_from. Qed.

Lemma preserve_is_normalize_spec (text : str) :
  preserve_code_formatting text = normalize_spec text.
Proof.
  unfold preserve_code_formatting, normalize_spec.
  rewrite formatted_lines_map. destruct text; reflexivity.
Qed.

Lemma drop_spaces_split (s : str) :
  exists ws, s = ws ++ drop_spaces s /\ forallb is_space ws = true.
Proof.
  induction s as [|c s IH]; simpl.
  - exists []. split; reflexivity.
  - destruct (is_space c) eqn:Hc.
    + destruct IH as (ws & Hs & Hws). exists (c :: ws). simpl.
      rewrite Hc, Hws. split; [now f_equal | reflexivity].
    + exists []. split; reflexivity.
Qed.

Lemma drop_spaces_head (s : str) :
  match drop_spaces s with c :: _ => is_space c | [] => false end = false.
Proof.
  induction s as [|c s IH]; simpl; [reflexivity|].
  destruct (is_space c) eqn:Hc; [exact IH | exact Hc].
Qed.

Lemma forallb_rev {A} (f : A -> bool) (l : list A) :
  forallb f (rev l) = forallb f l.
Proof.
  induction l as [|x l IH]; simpl; [reflexivity|].
  rewrite forallb_app, IH. simpl. rewrite andb_true_r. apply andb_comm.
Qed.

Lemma rstrip_split (line : str) :
  exists ws, line = rstrip line ++ ws /\ forallb is_space ws = true.
Proof.
  unfold rstrip. destruct (drop_spaces_split (rev line)) as (ws & Hs & Hws).
  exists (rev ws). split.
  - rewrite <- rev_app_distr, <- Hs. now rewrite rev_involutive.
  - now rewrite forallb_rev.
Qed.

Lemma rstrip_no_trailing_space (line : str) :
  ends_with_space (rstrip line) = false.
Proof.
  unfold ends_with_space, rstrip. rewrite rev_involutive.
  apply drop_spaces_head.
Qed.

Lemma splitlines_from_facts (n : nat) :
  forall text cur, (length text <= n)%nat ->
    forallb not_linebreak cur = true ->
    forallb (forallb not_linebreak) (splitlines_from cur text) = true
    /\ concat (splitlines_from cur text)
       = rev cur ++ List.filter not_linebreak text.
Proof.
  induction n as [|n IH]; intros text cur Hlen Hcur.
  - destruct text; [|simpl in Hlen; lia].
    destruct cur as [|a cur']; [split; reflexivity|].
    cbn [splitlines_from forallb concat List.filter].
    rewrite forallb_rev, Hcur, !app_nil_r. split; reflexivity.
  - destruct text as [|c rest].
    + apply (IH [] cur); [simpl; lia | exact Hcur].
    + simpl in Hlen. cbn [splitlines_from List.filter].
      assert (Hnl : not_linebreak c = negb (is_linebreak c)) by reflexivity.
      destruct (is_linebreak c) eqn:Hc; cbn [negb] in Hnl; rewrite Hnl;
        cbn [forallb concat].
      * rewrite forallb_rev, Hcur. cbn [andb].
        assert (Hrest : forallb (forallb not_linebreak) (splitlines_from [] rest)
                          = true
                        /\ concat (splitlines_from [] rest)
                           = List.filter not_linebreak rest)
          by (apply (IH rest []); [lia | reflexivity]).
        destruct (N.eqb c CR); [|destruct Hrest as [-> ->]; split; reflexivity].
        destruct rest as [|c' rest'];
          [destruct Hrest as [-> ->]; split; reflexivity|].
        destruct (N.eqb c' LF) eqn:Hc';
          [|destruct Hrest as [-> ->]; split; reflexivity].
        apply N.eqb_eq in Hc'. subst c'. simpl in Hlen.
        destruct (IH rest' []) as [-> ->]; [lia | reflexivity |].
        split; reflexivity.
      * destruct (IH rest (c :: cur)) as [-> ->];
          [lia | cbn [forallb]; now rewrite Hnl, Hcur |].
        cbn [rev]. rewrite <- app_assoc. split; reflexivity.
Qed.

Lemma splitlines_facts (text : str) :
  forallb (forallb not_linebreak) (splitlines text) = true
  /\ concat (splitlines text) = List.filter not_linebreak text.
Proof.
  apply (splitlines_from_facts (length text) text []); [lia | reflexivity].
Qed.

(** C6.  [preserve_code_formatting] is: split the text at line boundaries,
    strip the end of each line, join with one newline.  The lines hold no
    line-break character and together are the text without its line breaks;
    a stripped line is the line without a suffix of space characters (so the
    beginning of the line is kept) and does not end in a space; the empty
    text gives the empty text; the sample text of the specification gives
    the sample result, with no blank line at the end. *)
Theorem preserve_code_formatting_normalizes :
  (forall text : str,
      preserve_code_formatting text
      = join [LF] (List.map rstrip (splitlines text)))
  /\ (forall text : str,
        forallb (forallb not_linebreak) (splitlines text) = true
        /\ concat (splitlines text) = List.filter not_linebreak text)
  /\ (forall line : str,
        (exists ws, line = rstrip line ++ ws /\ forallb is_space ws = true)
        /\ ends_with_space (rstrip line) = false)
  /\ preserve_code_formatting [] = []
  /\ preserve_code_formatting sample_text = sample_normalized.
Proof.
  split; [exact preserve_is_normalize_spec|].
  split; [exact splitlines_facts|].
  split; [intros line; split;
          [apply rstrip_split | apply rstrip_no_trailing_space]|].
  split; [reflexivity | vm_compute; reflexivity].
Qed.

(** ** Extraction *)

Section ExtractionFacts.

Variable py_repr : value -> str.

Lemma extract_unfold (document : dict) :
  extract_text_content py_repr document
  = match first_text_field py_repr text_fields document with
    | Some text => Some text
    | None => scan_items (extract_of_value py_repr) document
    end.
Proof. reflexivity. Qed.

Lemma scan_items_cons (kv : str * value) (rest : dict) :
  scan_items (extract_of_value py_repr) (kv :: rest)
  = if startswith (fst kv) (u "_")
    then scan_items (extract_of_value py_repr) rest
    else
      match snd kv with
      | VStr s =>
          if (10 <? length s)%nat then Some (preserve_code_formatting s)
          else scan_items (extract_of_value py_repr) rest
      | VDict nested =>
          if truthy_text (extract_text_content py_repr nested)
          then extract_text_content py_repr nested
          else scan_items (extract_of_value py_repr) rest
      | _ => scan_items (extract_of_value py_repr) rest
      end.
Proof. destruct kv as [k v]. destruct v; reflexivity. Qed.

Lemma scan_items_passed_over (pre rest : dict) :
  forallb (passed_over py_repr) pre = true ->
  scan_items (extract_of_value py_repr) (pre ++ rest)
  = scan_items (extract_of_value py_repr) rest.
Proof.
  induction pre as [|kv pre IH]; intros Hpre; [reflexivity|].
  cbn [forallb] in Hpre. apply andb_true_iff in Hpre as [Hkv Hpre].
  rewrite <- app_comm_cons, scan_items_cons, (IH Hpre).
  unfold passed_over in Hkv.
  destruct (startswith (fst kv) (u "_")); [reflexivity|].
  cbn [orb] in Hkv. destruct (snd kv); try reflexivity.
  - apply Nat.leb_le in Hkv.
    destruct (Nat.ltb_spec 10 (length s)); [lia | reflexivity].
  - apply negb_true_iff in Hkv. now rewrite Hkv.
Qed.

Lemma first_text_field_skips (before rest : list str) (document : dict) :
  forallb (no_payload_at document) before = true ->
  first_text_field py_repr (before ++ rest) document
  = first_text_field py_repr rest document.
Proof.
  induction before as [|f before IH]; intros Hb; [reflexivity|].
  cbn [forallb] in Hb. apply andb_true_iff in Hb as [Hf Hb].
  cbn [app first_text_field]. unfold no_payload_at in Hf.
  destruct (dict_get document f) as [v|]; [|now apply IH].
  apply negb_true_iff in Hf. rewrite Hf. now apply IH.
Qed.

Lemma first_text_field_none (document : dict) :
  no_alias_payload document = true ->
  first_text_field py_repr text_fields document = None.
Proof.
  intros H. rewrite <- (app_nil_r text_fields).
  now rewrite first_text_field_skips.
Qed.

Lemma first_text_field_ext (fs : list str) (d d' : dict) :
  (forall k, dict_get d' k = dict_get d k) ->
  first_text_field py_repr fs d' = first_text_field py_repr fs d.
Proof.
  intros Hget. induction fs as [|f fs IH]; [reflexivity|].
  cbn [first_text_field]. now rewrite Hget, IH.
Qed.

End ExtractionFacts.

Lemma str_eqb_eq (a b : str) : str_eqb a b = true <-> a = b.
Proof. unfold str_eqb. apply bool_decide_eq_true. Qed.

Lemma dict_get_In (d : dict) (k : str) (v : value) :
  List.NoDup (List.map fst d) -> (dict_get d k = Some v <-> In (k, v) d).
Proof.
  induction d as [|[k0 v0] d IH]; intros Hnd; simpl.
  - split; [discriminate | tauto].
  - inversion Hnd as [|? ? Hnotin Hnd']; subst.
    destruct (str_eqb k0 k) eqn:Hk.
    + apply str_eqb_eq in Hk. subst k0. split.
      * intros [= ->]. now left.
      * intros [[= ->]|Hin]; [reflexivity|].
        exfalso. apply Hnotin. apply (in_map fst) in Hin. exact Hin.
    + rewrite (IH Hnd'). split; [tauto|].
      intros [[= -> ->]|Hin]; [|exact Hin].
      assert (str_eqb k k = true) by now apply str_eqb_eq.
      congruence.
Qed.

Lemma dict_get_permutation (d d' : dict) (k : str) :
  List.NoDup (List.map fst d) -> Permutation d d' ->
  dict_get d' k = dict_get d k.
Proof.
  intros Hnd Hperm.
  assert (Hnd' : List.NoDup (List.map fst d'))
    by (eapply Permutation_NoDup; [apply Permutation_map; exact Hperm | exact Hnd]).
  destruct (dict_get d k) as [v|] eqn:Hd.
  - apply (dict_get_In _ _ _ Hnd'). eapply Permutation_in; [exact Hperm|].
    now apply (dict_get_In _ _ _ Hnd).
  - destruct (dict_get d' k) as [v'|] eqn:Hd'; [|reflexivity].
    apply (dict_get_In _ _ _ Hnd') in Hd'.
    apply (Permutation_in _ (Permutation_sym Hperm)) in Hd'.
    apply (dict_get_In _ _ _ Hnd) in Hd'. congruence.
Qed.

Ltac list_nodup :=
  apply NoDup_ListNoDup; apply (bool_decide_unpack _); vm_compute; reflexivity.

(** C7, as the code has it.  When an alias field holds a value that is true
    in Python's sense (not null, not false, not zero, not an empty string,
    list or record) and every alias before it in the fixed order is absent
    or holds a value that is not, extraction returns the normalised [str] of
    that value; the order of the record's own fields does not matter. *)
Theorem extract_first_truthy_alias (py_repr : value -> str)
  (document : dict) (before after : list str) (field : str) (v : value) :
  text_fields = before ++ field :: after ->
  forallb (no_payload_at document) before = true ->
  dict_get document field = Some v ->
  truthy v = true ->
  extract_text_content py_repr document
  = Some (preserve_code_formatting (py_str py_repr v))
  /\ (forall document' : dict,
        List.NoDup (List.map fst document) ->
        Permutation document document' ->
        extract_text_content py_repr document'
        = Some (preserve_code_formatting (py_str py_repr v))).
Proof.
  intros Hfields Hbefore Hget Htrue.
  assert (Hfirst : first_text_field py_repr text_fields document
                   = Some (preserve_code_formatting (py_str py_repr v))).
  { rewrite Hfields, first_text_field_skips by exact Hbefore.
    cbn [first_text_field]. now rewrite Hget, Htrue. }
  split.
  - now rewrite extract_unfold, Hfirst.
  - intros document' Hnd Hperm.
    rewrite extract_unfold, (first_text_field_ext py_repr text_fields document).
    + now rewrite Hfirst.
    + intros k. now apply dict_get_permutation.
Qed.

Lemma extract_first_truthy_alias_witness :
  forallb (no_payload_at code_message) [u "text"; u "content"] = true
  /\ dict_get code_message (u "code") = Some (VStr (u "x"))
  /\ extract_text_content plain_repr code_message = Some (u "x")
  /\ extract_text_content plain_repr message_code = Some (u "x").
Proof.
  destruct (extract_first_truthy_alias plain_repr code_message
              [u "text"; u "content"]
              [u "message"; u "body"; u "data"; u "value"; u "snippet"]
              (u "code") (VStr (u "x"))
              eq_refl eq_refl eq_refl eq_refl) as [Hsame Hother].
  split; [reflexivity|]. split; [reflexivity|]. split; [exact Hsame|].
  apply Hother; [list_nodup | apply perm_swap].
Defined.

(** C7, as the claim states it, fails: the alias field [value] holds the
    number 0, which is not empty, and extraction returns the text of the
    later alias [snippet], not "0". *)
Lemma zero_alias_is_passed_over :
  first_nonempty_alias text_fields zero_value_record = Some (VInt 0)
  /\ preserve_code_formatting (py_str plain_repr (VInt 0)) = u "0"
  /\ extract_text_content plain_repr zero_value_record = Some (u "s")
  /\ extract_text_content plain_repr zero_value_record
     <> Some (preserve_code_formatting (py_str plain_repr (VInt 0))).
Proof.
  split; [reflexivity|]. split; [vm_compute; reflexivity|].
  split; [vm_compute; reflexivity|]. vm_compute. discriminate.
Qed.

(** C8, as the code has it.  In a record whose alias fields hold no payload,
    the first string longer than ten characters in a field not beginning
    with "_" is returned, normalised, when the scan passes over every field
    before it, that is when no nested record before it yields a non-empty
    payload; and when the scan passes over every field (no such string, no
    nested record with a payload), the result is absent. *)
Theorem scan_returns_first_long_string (py_repr : value -> str)
  (document : dict) :
  no_alias_payload document = true ->
  (forall (pre post : dict) (key : str) (s : str),
      document = pre ++ (key, VStr s) :: post ->
      forallb (passed_over py_repr) pre = true ->
      startswith key (u "_") = false ->
      (10 < length s)%nat ->
      extract_text_content py_repr document
      = Some (preserve_code_formatting s))
  /\ (forallb (passed_over py_repr) document = true ->
      extract_text_content py_repr document = None).
Proof.
  intros Hno. split.
  - intros pre post key s -> Hpre Hkey Hlen.
    rewrite extract_unfold, first_text_field_none by exact Hno.
    rewrite scan_items_passed_over by exact Hpre.
    rewrite scan_items_cons. cbn [fst snd]. rewrite Hkey.
    apply Nat.ltb_lt in Hlen. now rewrite Hlen.
  - intros Hall.
    rewrite extract_unfold, first_text_field_none by exact Hno.
    rewrite <- (app_nil_r document).
    now rewrite scan_items_passed_over.
Qed.

Lemma scan_returns_first_long_string_witness :
  no_alias_payload foo_long = true
  /\ no_alias_payload foo_short = true
  /\ extract_text_content plain_repr foo_long = Some long_string
  /\ extract_text_content plain_repr foo_short = None.
Proof.
  split; [reflexivity|]. split; [reflexivity|]. split.
  - apply (proj1 (scan_returns_first_long_string plain_repr foo_long eq_refl)
             [] [] (u "foo") long_string eq_refl eq_refl eq_refl).
    vm_compute. lia.
  - apply (proj2 (scan_returns_first_long_string plain_repr foo_short eq_refl)).
    reflexivity.
Defined.

(** C8, as the claim states it, fails: the record has no alias field and its
    first (and only) long string is in [foo], but the nested record in the
    field before it yields "x", which is what extraction returns. *)
Lemma nested_record_wins_over_first_long_string :
  List.map (dict_get nested_before_long) text_fields
  = List.map (fun _ => None) text_fields
  /\ first_long_string nested_before_long = Some long_string
  /\ extract_text_content plain_repr nested_before_long = Some (u "x")
  /\ extract_text_content plain_repr nested_before_long
     <> Some (preserve_code_formatting long_string).
Proof.
  split; [reflexivity|]. split; [reflexivity|].
  split; [vm_compute; reflexivity|]. vm_compute. discriminate.
Qed.

(** C9, as the code has it.  The fields are scanned once, in their order,
    and each field is settled when it is reached: a string longer than ten
    characters is returned, a nested record is searched at once and its
    non-empty result is returned.  So of a long string and a nested record
    with a payload, the one that comes first in field order wins. *)
Theorem scan_is_one_pass_in_field_order (py_repr : value -> str)
  (document pre post : dict) (key : str) (v : value) :
  no_alias_payload document = true ->
  document = pre ++ (key, v) :: post ->
  forallb (passed_over py_repr) pre = true ->
  startswith key (u "_") = false ->
  (forall s : str,
      v = VStr s -> (10 < length s)%nat ->
      extract_text_content py_repr document
      = Some (preserve_code_formatting s))
  /\ (forall nested : dict,
        v = VDict nested ->
        truthy_text (extract_text_content py_repr nested) = true ->
        extract_text_content py_repr document
        = extract_text_content py_repr nested).
Proof.
  intros Hno -> Hpre Hkey.
  assert (Hscan : extract_text_content py_repr (pre ++ (key, v) :: post)
                  = scan_items (extract_of_value py_repr) ((key, v) :: post)).
  { rewrite extract_unfold, first_text_field_none by exact Hno.
    now rewrite scan_items_passed_over. }
  rewrite Hscan, scan_items_cons. cbn [fst snd]. rewrite Hkey. split.
  - intros s -> Hlen. apply Nat.ltb_lt in Hlen. now rewrite Hlen.
  - intros nested -> Hnested. now rewrite Hnested.
Qed.

Lemma scan_is_one_pass_in_field_order_witness :
  no_alias_payload details_before_summary = true
  /\ no_alias_payload summary_before_details = true
  /\ extract_text_content plain_repr details_before_summary
     = Some nested_note
  /\ extract_text_content plain_repr summary_before_details
     = Some top_summary.
Proof.
  split; [reflexivity|]. split; [reflexivity|]. split.
  - apply (proj2 (scan_is_one_pass_in_field_order plain_repr
                    details_before_summary []
                    [(u "summary", VStr top_summary)] (u "details")
                    (VDict [(u "note", VStr nested_note)])
                    eq_refl eq_refl eq_refl eq_refl)
             [(u "note", VStr nested_note)] eq_refl).
    vm_compute. reflexivity.
  - apply (proj1 (scan_is_one_pass_in_field_order plain_repr
                    summary_before_details []
                    [(u "details", VDict [(u "note", VStr nested_note)])]
                    (u "summary") (VStr top_summary)
                    eq_refl eq_refl eq_refl eq_refl)
             top_summary eq_refl).
    vm_compute. lia.
Defined.

(** C9, as the claim states it, fails: the record has a long string of its
    own in [summary], yet extraction returns the payload found inside the
    nested record of the earlier field [details]. *)
Lemma earlier_nested_payload_is_preferred :
  no_alias_payload details_before_summary = true
  /\ first_long_string details_before_summary = Some top_summary
  /\ extract_text_content plain_repr details_before_summary
     = Some nested_note
  /\ extract_text_content plain_repr details_before_summary
     <> Some (preserve_code_formatting top_summary).
Proof.
  split; [reflexivity|]. split; [reflexivity|].
  split; [vm_compute; reflexivity|]. vm_compute. discriminate.
Qed.

(** ** The seen-set filter *)

Lemma filter_processed_admitted (docs acc : list document) (ids : gset Z) :
  filter_processed docs acc ids
  = (acc ++ admitted docs ids, ids ∪ list_to_set (ids_of docs)).
Proof.
  revert acc ids. induction docs as [|d docs IH]; intros acc ids.
  - cbn. rewrite app_nil_r. f_equal. set_solver.
  - cbn [filter_processed admitted ids_of List.map list_to_set].
    case_bool_decide as Hin.
    + rewrite IH. f_equal. unfold ids_of. set_solver.
    + rewrite IH, <- app_assoc. f_equal. unfold ids_of. set_solver.
Qed.

Lemma admitted_sublist (docs : list document) (ids : gset Z) :
  admitted docs ids `sublist_of` docs.
Proof.
  revert ids. induction docs as [|d docs IH]; intros ids; cbn.
  - constructor.
  - case_bool_decide; [apply sublist_cons | apply sublist_skip]; apply IH.
Qed.

Lemma admitted_fresh (docs : list document) (ids : gset Z) (x : Z) :
  x ∈ ids_of (admitted docs ids) -> x ∉ ids.
Proof.
  revert ids. induction docs as [|d docs IH]; intros ids; cbn.
  - intros H. now apply elem_of_nil in H.
  - case_bool_decide as Hin; [apply IH|].
    cbn. intros [->|Hx]%elem_of_cons; [exact Hin|].
    apply IH in Hx. set_solver.
Qed.

Lemma admitted_NoDup (docs : list document) (ids : gset Z) :
  NoDup (ids_of (admitted docs ids)).
Proof.
  revert ids. induction docs as [|d docs IH]; intros ids; cbn.
  - constructor.
  - case_bool_decide as Hin; [apply IH|].
    cbn. apply NoDup_cons. split; [|apply IH].
    intros Hx. apply admitted_fresh in Hx. set_solver.
Qed.

Lemma admitted_covers (docs : list document) (ids : gset Z) (x : Z) :
  x ∈ ids_of docs -> x ∉ ids -> x ∈ ids_of (admitted docs ids).
Proof.
  revert ids. induction docs as [|d docs IH]; intros ids; cbn.
  - intros H. now apply elem_of_nil in H.
  - intros [->|Hx]%elem_of_cons Hnot.
    + case_bool_decide; [contradiction | cbn; apply elem_of_cons; now left].
    + case_bool_decide as Hin; [now apply IH|].
      cbn. apply elem_of_cons.
      destruct (decide (x = _id d)) as [->|Hne]; [now left|].
      right. apply IH; [exact Hx | set_solver].
Qed.

(** ** Sorting *)

Lemma insert_desc_elem (d x : document) (l : list document) :
  x ∈ insert_desc d l <-> x = d \/ x ∈ l.
Proof.
  induction l as [|y l IH]; cbn.
  - rewrite list_elem_of_singleton, elem_of_nil. tauto.
  - destruct (_id y <=? _id d); rewrite !elem_of_cons; [tauto|].
    rewrite IH. tauto.
Qed.

Lemma insert_desc_sorted (d : document) (l : list document) :
  StronglySorted ge_id l -> StronglySorted ge_id (insert_desc d l).
Proof.
  induction l as [|y l IH]; intros Hs; cbn.
  - repeat constructor.
  - apply StronglySorted_inv in Hs as [Hl Hy].
    destruct (Z.leb_spec (_id y) (_id d)) as [Hle|Hlt].
    + constructor; [now constructor|].
      constructor; [exact Hle|].
      eapply Forall_impl; [exact Hy|]. unfold ge_id. intros; simpl in *; lia.
    + constructor; [now apply IH|].
      apply Forall_forall. intros x Hx. apply insert_desc_elem in Hx.
      destruct Hx as [->|Hx]; [unfold ge_id; lia|].
      rewrite Forall_forall in Hy. now apply Hy.
Qed.

Lemma sort_desc_sorted (l : list document) : StronglySorted ge_id (sort_desc l).
Proof.
  induction l as [|d l IH]; cbn; [constructor | now apply insert_desc_sorted].
Qed.

Lemma StronglySorted_sublist {A} (R : relation A) (l1 l2 : list A) :
  l1 `sublist_of` l2 -> StronglySorted R l2 -> StronglySorted R l1.
Proof.
  induction 1 as [|x l1 l2 Hsub IH|x l1 l2 Hsub IH]; intros Hs.
  - constructor.
  - apply StronglySorted_inv in Hs as [Hl Hx].
    constructor; [now apply IH|].
    apply Forall_forall. intros y Hy. rewrite Forall_forall in Hx.
    apply Hx. now apply (elem_of_sublist l1 l2).
  - apply StronglySorted_inv in Hs as [Hl _]. now apply IH.
Qed.

Lemma StronglySorted_rev {A} (R : relation A) (l : list A) :
  StronglySorted R l -> StronglySorted (flip R) (rev l).
Proof.
  induction 1 as [|x l Hs IH Hx]; cbn; [constructor|].
  apply StronglySorted_app_2; [|exact IH|repeat constructor].
  intros a b Ha Hb. apply list_elem_of_singleton in Hb. subst b.
  apply list_elem_of_In, in_rev, list_elem_of_In in Ha.
  rewrite Forall_forall in Hx. now apply Hx.
Qed.

Lemma strictly_descending (l : list document) :
  StronglySorted ge_id l -> NoDup (ids_of l) -> StronglySorted gt_id l.
Proof.
  induction 1 as [|d l Hs IH Hd]; cbn; intros Hnd; [constructor|].
  apply NoDup_cons in Hnd as [Hnotin Hnd].
  constructor; [now apply IH|].
  apply Forall_forall. intros x Hx. rewrite Forall_forall in Hd.
  specialize (Hd x Hx). unfold ge_id in Hd. unfold gt_id.
  assert (_id x <> _id d); [|lia].
  intros Heq. apply Hnotin. rewrite <- Heq.
  unfold ids_of. now apply (list_elem_of_fmap_2 _id).
Qed.

Lemma ascending_ids (l : list document) :
  StronglySorted (flip gt_id) l -> StronglySorted Z.lt (ids_of l).
Proof.
  induction 1 as [|d l Hs IH Hd]; cbn; [constructor|].
  constructor; [exact IH|].
  apply Forall_forall. intros x Hx.
  apply (list_elem_of_fmap_1 _id) in Hx as (y & -> & Hy).
  rewrite Forall_forall in Hd. exact (Hd y Hy).
Qed.

(** ** The poll cycle *)

Section MonitorFacts.

Variable py_repr : value -> str.
Variable ObjectId_from_datetime : Z -> Z.
Variable query_matches : query -> document -> bool.
Variable pyperclip_copy : nat -> str -> bool.

Local Abbreviation get_new_documents' :=
  (get_new_documents ObjectId_from_datetime query_matches).
Local Abbreviation fetched' := (fetched ObjectId_from_datetime query_matches).
Local Abbreviation process_document' :=
  (process_document py_repr pyperclip_copy).
Local Abbreviation process_all' := (process_all py_repr pyperclip_copy).
Local Abbreviation poll_for_changes' :=
  (poll_for_changes py_repr ObjectId_from_datetime query_matches
     pyperclip_copy).
Local Abbreviation run_cycles' :=
  (run_cycles py_repr ObjectId_from_datetime query_matches pyperclip_copy).
Local Abbreviation start_monitoring' :=
  (start_monitoring py_repr ObjectId_from_datetime query_matches
     pyperclip_copy).
Local Abbreviation lifetime' :=
  (lifetime py_repr ObjectId_from_datetime query_matches pyperclip_copy).

Lemma set_processed_ids_same (m : monitor) :
  set_processed_ids (processed_ids m) m = m.
Proof. now destruct m. Qed.

Lemma get_new_documents_spec (w : world) (m : monitor) :
  get_new_documents' w m
  = (admitted (fetched' w m) (processed_ids m),
     set_processed_ids
       (processed_ids m ∪ list_to_set (ids_of (fetched' w m))) m).
Proof.
  unfold get_new_documents, fetched, current_query,
    base_get_new_documents, enhanced_get_new_documents, fetch_and_filter.
  destruct (class m), (collection w) as [coll|];
    rewrite ?filter_processed_admitted; cbn [app ids_of List.map list_to_set];
    rewrite ?(right_id_L ∅ (∪)), ?set_processed_ids_same; reflexivity.
Qed.

(** [process_document'] touches the clipboard, the log and the counters,
    and nothing else. *)
Lemma process_document_frame (doc : document) (m : monitor) :
  let m' := process_document' doc m in
  class m' = class m
  /\ processed_ids m' = processed_ids m
  /\ last_check_time m' = last_check_time m
  /\ filters m' = filters m
  /\ is_monitoring m' = is_monitoring m
  /\ start_time (stats m') = start_time (stats m)
  /\ documents_processed (stats m')
     = documents_processed (stats m) + counted (class m).
Proof.
  unfold process_document, enhanced_process_document,
    base_process_document, copy_to_clipboard.
  destruct (class m) eqn:Hc;
    destruct (extract_text_content py_repr (items doc)) as [[|c cs]|];
    cbn; try destruct (pyperclip_copy _ _); cbn; rewrite ?Hc;
    repeat split; cbn; lia.
Qed.

Lemma process_document_log (doc : document) (m : monitor) :
  exists e : event,
    log (process_document' doc m) = log m ++ [Processing (_id doc); e]
    /\ processing_id e = None
    /\ delivered_ids [e] `sublist_of` [_id doc].
Proof.
  unfold process_document, enhanced_process_document,
    base_process_document, copy_to_clipboard.
  destruct (class m);
    destruct (extract_text_content py_repr (items doc)) as [[|c cs]|];
    cbn; try destruct (pyperclip_copy _ _); cbn;
    rewrite <- app_assoc; cbn; eexists; (split; [reflexivity|]);
    (split; [reflexivity|]); cbn;
    solve [reflexivity | apply sublist_nil_l].
Qed.

Lemma process_all_cons (d : document) (docs : list document) (m : monitor) :
  process_all' (d :: docs) m = process_all' docs (process_document' d m).
Proof. reflexivity. Qed.

Lemma process_all_frame (docs : list document) (m : monitor) :
  let m' := process_all' docs m in
  class m' = class m
  /\ processed_ids m' = processed_ids m
  /\ last_check_time m' = last_check_time m
  /\ filters m' = filters m
  /\ is_monitoring m' = is_monitoring m
  /\ start_time (stats m') = start_time (stats m)
  /\ documents_processed (stats m')
     = documents_processed (stats m)
       + counted (class m) * Z.of_nat (length docs).
Proof.
  revert m. induction docs as [|d docs IH]; intros m; cbn zeta.
  - cbn. repeat split; lia.
  - rewrite process_all_cons.
    destruct (process_document_frame d m)
      as (Hc & Hp & Hl & Hf & Hi & Hs & Hn).
    destruct (IH (process_document' d m))
      as (Hc' & Hp' & Hl' & Hf' & Hi' & Hs' & Hn').
    rewrite Hc', Hp', Hl', Hf', Hi', Hs', Hn', Hc, Hn.
    repeat split; try assumption. cbn [length]. lia.
Qed.

Lemma process_all_log (docs : list document) (m : monitor) :
  exists evs : list event,
    log (process_all' docs m) = log m ++ evs
    /\ processing_ids evs = ids_of docs
    /\ delivered_ids evs `sublist_of` ids_of docs.
Proof.
  revert m. induction docs as [|d docs IH]; intros m.
  - exists []. cbn. rewrite app_nil_r. repeat split. constructor.
  - rewrite process_all_cons.
    destruct (process_document_log d m) as (e & Hlog & He & Hdel).
    destruct (IH (process_document' d m)) as (evs & Hlog' & Hp & Hd).
    exists (Processing (_id d) :: e :: evs).
    rewrite Hlog', Hlog, <- app_assoc.
    split; [reflexivity|]. split.
    + unfold processing_ids in *. cbn. rewrite He. cbn. now rewrite Hp.
    + assert (Hsplit : delivered_ids (Processing (_id d) :: e :: evs)
                       = delivered_ids [e] ++ delivered_ids evs)
        by (destruct e; reflexivity).
      rewrite Hsplit.
      change (ids_of (d :: docs)) with ([_id d] ++ ids_of docs).
      now apply sublist_app.
Qed.

Lemma poll_for_changes_spec (w : world) (m : monitor) :
  poll_for_changes' w m
  = set_last_check_time (Some (utcnow w))
      (process_all' (rev (admitted (fetched' w m) (processed_ids m)))
         (set_processed_ids
            (processed_ids m ∪ list_to_set (ids_of (fetched' w m))) m)).
Proof.
  unfold poll_for_changes. now rewrite get_new_documents_spec.
Qed.

Lemma poll_frame (w : world) (m : monitor) :
  let m' := poll_for_changes' w m in
  class m' = class m
  /\ processed_ids m'
     = processed_ids m ∪ list_to_set (ids_of (fetched' w m))
  /\ filters m' = filters m
  /\ is_monitoring m' = is_monitoring m
  /\ start_time (stats m') = start_time (stats m)
  /\ last_check_time m' = Some (utcnow w).
Proof.
  cbn zeta. rewrite poll_for_changes_spec.
  set (m1 := set_processed_ids _ m).
  destruct (process_all_frame
              (rev (admitted (fetched' w m) (processed_ids m))) m1)
    as (Hc & Hp & _ & Hf & Hi & Hs & _).
  cbn. rewrite Hc, Hp, Hf, Hi, Hs. repeat split.
Qed.

Lemma poll_log (w : world) (m : monitor) :
  exists evs : list event,
    log (poll_for_changes' w m) = log m ++ evs
    /\ processing_ids evs
       = ids_of (rev (admitted (fetched' w m) (processed_ids m)))
    /\ delivered_ids evs `sublist_of` processing_ids evs.
Proof.
  rewrite poll_for_changes_spec.
  set (m1 := set_processed_ids _ m).
  destruct (process_all_log
              (rev (admitted (fetched' w m) (processed_ids m))) m1)
    as (evs & Hlog & Hp & Hd).
  exists evs. cbn. rewrite Hlog, Hp. repeat split. exact Hd.
Qed.

Lemma ids_of_rev (docs : list document) :
  ids_of (rev docs) = rev (ids_of docs).
Proof. unfold ids_of. apply map_rev. Qed.

Lemma elem_of_rev {A} (x : A) (l : list A) : x ∈ rev l <-> x ∈ l.
Proof. rewrite !list_elem_of_In. symmetry. apply in_rev. Qed.

Lemma NoDup_rev {A} (l : list A) : NoDup l -> NoDup (rev l).
Proof.
  intros H. now rewrite <- (Permutation_rev l).
Qed.

Lemma fetched_sorted (w : world) (m : monitor) :
  StronglySorted ge_id (fetched' w m).
Proof.
  unfold fetched. destruct (collection w) as [coll|]; [|constructor].
  unfold find_sorted_limited.
  eapply StronglySorted_sublist; [apply sublist_take | apply sort_desc_sorted].
Qed.

(** The batch of one cycle, oldest first, has strictly ascending
    identifiers. *)
Lemma batch_ascending (w : world) (m : monitor) :
  StronglySorted Z.lt
    (ids_of (rev (admitted (fetched' w m) (processed_ids m)))).
Proof.
  apply ascending_ids, StronglySorted_rev, strictly_descending.
  - eapply StronglySorted_sublist;
      [apply admitted_sublist | apply fetched_sorted].
  - apply admitted_NoDup.
Qed.

Lemma cycle_ascending (w : world) (m : monitor) :
  exists evs : list event,
    log (poll_for_changes' w m) = log m ++ evs
    /\ StronglySorted Z.lt (processing_ids evs)
    /\ StronglySorted Z.lt (delivered_ids evs).
Proof.
  destruct (poll_log w m) as (evs & Hlog & Hp & Hd).
  exists evs. split; [exact Hlog|].
  assert (Hs : StronglySorted Z.lt (processing_ids evs))
    by (rewrite Hp; apply batch_ascending).
  split; [exact Hs|]. eapply StronglySorted_sublist; eassumption.
Qed.

(** The invariant of the seen-set. *)
Lemma poll_keeps_seen (w : world) (m : monitor) :
  seen_is_processed m -> seen_is_processed (poll_for_changes' w m).
Proof.
  intros (Hnd & Hids & Hsub).
  destruct (poll_log w m) as (evs & Hlog & Hp & Hd).
  destruct (poll_frame w m) as (_ & Hp' & _).
  unfold seen_is_processed. rewrite Hlog, Hp'.
  rewrite ids_of_rev in Hp.
  unfold processing_ids, delivered_ids in *. rewrite !omap_app, Hp.
  split; [|split].
  - apply NoDup_app. split; [exact Hnd|]. split.
    + intros x Hx Hx'. rewrite elem_of_rev in Hx'.
      apply admitted_fresh in Hx'. apply Hx'. rewrite Hids.
      now apply elem_of_list_to_set.
    + apply NoDup_rev, admitted_NoDup.
  - apply set_eq. intros x.
    rewrite list_to_set_app_L, !elem_of_union, !elem_of_list_to_set,
      elem_of_rev, Hids, elem_of_list_to_set.
    split; intros [Hx|Hx]; auto.
    + destruct (decide (x ∈ omap processing_id (log m))) as [Hin|Hnin];
        [now left|].
      right. apply admitted_covers; [exact Hx|].
      rewrite elem_of_list_to_set. exact Hnin.
    + right. unfold ids_of in *.
      apply list_elem_of_fmap in Hx as (d & -> & Hd').
      apply list_elem_of_fmap_2.
      eapply elem_of_sublist; [exact Hd' | apply admitted_sublist].
  - rewrite Hp in Hd. now apply sublist_app.
Qed.

Lemma run_cycles_keeps_seen (ws : list world) (m : monitor) :
  seen_is_processed m -> seen_is_processed (run_cycles' ws m).
Proof.
  revert m. induction ws as [|w ws IH]; intros m Hm; [exact Hm|].
  cbn. apply IH, poll_keeps_seen, Hm.
Qed.

Lemma seen_same_log (m m' : monitor) :
  log m' = log m -> processed_ids m' = processed_ids m ->
  seen_is_processed m -> seen_is_processed m'.
Proof. unfold seen_is_processed. now intros -> ->. Qed.

Lemma start_monitoring_keeps_seen (s : session) (m : monitor) :
  seen_is_processed m -> seen_is_processed (start_monitoring' s m).
Proof.
  intros Hm.
  unfold start_monitoring, enhanced_start_monitoring, base_start_monitoring.
  destruct (class m), (connects s); cbn [connects]; try exact Hm.
  - eapply seen_same_log; [reflexivity | reflexivity |].
    apply run_cycles_keeps_seen.
    eapply seen_same_log; [reflexivity | reflexivity | exact Hm].
  - eapply seen_same_log; [reflexivity | reflexivity |].
    apply run_cycles_keeps_seen.
    eapply seen_same_log; [reflexivity | reflexivity | exact Hm].
Qed.

Lemma lifetime_keeps_seen (ss : list session) (m : monitor) :
  seen_is_processed m -> seen_is_processed (lifetime' ss m).
Proof.
  revert m. induction ss as [|s ss IH]; intros m Hm; [exact Hm|].
  cbn. apply IH, start_monitoring_keeps_seen, Hm.
Qed.

Lemma new_monitor_seen (c : monitor_class) (flt : dict) :
  seen_is_processed (new_monitor c flt).
Proof. repeat split; constructor. Qed.

Lemma run_cycles_seen_grows (ws : list world) (m : monitor) (x : Z) :
  x ∈ processed_ids m -> x ∈ processed_ids (run_cycles' ws m).
Proof.
  revert m. induction ws as [|w ws IH]; intros m Hx; [exact Hx|].
  cbn. apply IH. destruct (poll_frame w m) as (_ & -> & _).
  apply elem_of_union. now left.
Qed.

Lemma counters_follow_refl (m : monitor) : counters_follow m m.
Proof. unfold counters_follow. repeat split; lia. Qed.

Lemma counters_follow_trans (m1 m2 m3 : monitor) :
  counters_follow m1 m2 -> counters_follow m2 m3 -> counters_follow m1 m3.
Proof.
  unfold counters_follow.
  intros (Hc & Hs & Ht & Hd) (Hc' & Hs' & Ht' & Hd').
  rewrite Hc in Hd'. repeat split; [congruence | congruence | lia | lia].
Qed.

Lemma process_document_counters (doc : document) (m : monitor) :
  counters_follow m (process_document' doc m).
Proof.
  unfold counters_follow, process_document, enhanced_process_document,
    base_process_document, copy_to_clipboard.
  destruct (class m) eqn:Hc;
    destruct (extract_text_content py_repr (items doc)) as [[|c cs]|];
    cbn; try destruct (pyperclip_copy _ _); cbn; rewrite ?Hc;
    unfold processing_ids; rewrite ?omap_app, ?length_app; cbn;
    repeat split; lia.
Qed.

Lemma process_all_counters (docs : list document) (m : monitor) :
  counters_follow m (process_all' docs m).
Proof.
  revert m. induction docs as [|d docs IH]; intros m.
  - apply counters_follow_refl.
  - rewrite process_all_cons. eapply counters_follow_trans;
      [apply process_document_counters | apply IH].
Qed.

Lemma poll_counters (w : world) (m : monitor) :
  counters_follow m (poll_for_changes' w m).
Proof.
  rewrite poll_for_changes_spec.
  set (m1 := set_processed_ids _ m).
  exact (process_all_counters _ m1).
Qed.

Lemma run_cycles_counters (ws : list world) (m : monitor) :
  counters_follow m (run_cycles' ws m).
Proof.
  revert m. induction ws as [|w ws IH]; intros m.
  - apply counters_follow_refl.
  - cbn. eapply counters_follow_trans; [apply poll_counters | apply IH].
Qed.

Lemma query_set_elem (q : query) (key : str) (c : condition) :
  (key, c) ∈ query_set q key c.
Proof.
  induction q as [|[k c0] q IH]; cbn.
  - apply list_elem_of_here.
  - destruct (str_eqb k key) eqn:Hk.
    + apply str_eqb_eq in Hk. subst k. apply list_elem_of_here.
    + now apply list_elem_of_further.
Qed.

End MonitorFacts.

(** ** The claims on the monitor *)

(** C1.  In the life of a monitor object, over any sessions and cycles and
    whatever the store, the clipboard and the clock do, no identifier is
    handed to [process_document] twice and none is delivered twice; the
    seen-set is the set of the identifiers handed over so far; and what the
    next fetch lets through are distinct identifiers that were never handed
    over before. *)
Theorem each_identifier_admitted_once
  (py_repr : value -> str) (ObjectId_from_datetime : Z -> Z)
  (query_matches : query -> document -> bool)
  (pyperclip_copy : nat -> str -> bool)
  (c : monitor_class) (flt : dict) (ss : list session) (w : world) :
  let m := lifetime py_repr ObjectId_from_datetime query_matches
             pyperclip_copy ss (new_monitor c flt) in
  let batch := fst (get_new_documents ObjectId_from_datetime query_matches
                      w m) in
  NoDup (processing_ids (log m))
  /\ NoDup (delivered_ids (log m))
  /\ processed_ids m = list_to_set (processing_ids (log m))
  /\ NoDup (ids_of batch)
  /\ Forall (fun x => x ∉ processing_ids (log m)) (ids_of batch).
Proof.
  intros m batch.
  destruct (lifetime_keeps_seen py_repr ObjectId_from_datetime query_matches
              pyperclip_copy ss _ (new_monitor_seen c flt))
    as (Hnd & Hids & Hsub).
  fold m in Hnd, Hids, Hsub.
  split; [exact Hnd|]. split; [eapply sublist_NoDup; eassumption|].
  split; [exact Hids|].
  subst batch. rewrite get_new_documents_spec. cbn [fst].
  split; [apply admitted_NoDup|].
  apply Forall_forall. intros x Hx Hold.
  apply admitted_fresh in Hx. apply Hx. rewrite Hids.
  now apply elem_of_list_to_set.
Qed.

(** C10.  A document that a fetch returns is in the seen-set when
    [get_new_documents] returns, before anything is logged, extracted or
    copied; it stays there through all later cycles, whatever extraction
    finds and whether the clipboard call succeeds, and no later fetch lets
    it through again. *)
Theorem fetched_identifier_stays_seen
  (py_repr : value -> str) (ObjectId_from_datetime : Z -> Z)
  (query_matches : query -> document -> bool)
  (pyperclip_copy : nat -> str -> bool)
  (m : monitor) (w : world) (d : document) (ws : list world) (w' : world) :
  d ∈ fetched ObjectId_from_datetime query_matches w m ->
  let m1 := snd (get_new_documents ObjectId_from_datetime query_matches
                   w m) in
  let m2 := run_cycles py_repr ObjectId_from_datetime query_matches
              pyperclip_copy ws
              (poll_for_changes py_repr ObjectId_from_datetime query_matches
                 pyperclip_copy w m) in
  _id d ∈ processed_ids m1
  /\ log m1 = log m
  /\ _id d ∈ processed_ids m2
  /\ _id d ∉ ids_of (fst (get_new_documents ObjectId_from_datetime
                            query_matches w' m2)).
Proof.
  intros Hd m1 m2.
  assert (Hin : _id d ∈ processed_ids m
                         ∪ list_to_set (ids_of
                             (fetched ObjectId_from_datetime query_matches
                                w m))).
  { apply elem_of_union. right. apply elem_of_list_to_set.
    unfold ids_of. now apply (list_elem_of_fmap_2 _id). }
  assert (H2 : _id d ∈ processed_ids m2).
  { subst m2. apply run_cycles_seen_grows.
    destruct (poll_frame py_repr ObjectId_from_datetime query_matches
                pyperclip_copy w m) as (_ & -> & _).
    exact Hin. }
  subst m1. rewrite !get_new_documents_spec. cbn [fst snd].
  split; [exact Hin|]. split; [reflexivity|]. split; [exact H2|].
  intros Hx. apply admitted_fresh in Hx. contradiction.
Qed.

Lemma fetched_identifier_stays_seen_witness :
  doc_empty ∈ fetched seconds_then_zeros plain_matches
                {| collection := Some [doc_empty]; utcnow := 0 |}
                (new_monitor EnhancedPollingMonitor [])
  /\ 7 ∉ ids_of (fst (get_new_documents seconds_then_zeros plain_matches
                        {| collection := Some [doc_empty]; utcnow := 9 |}
                        (run_cycles plain_repr seconds_then_zeros
                           plain_matches never_ok []
                           (poll_for_changes plain_repr seconds_then_zeros
                              plain_matches never_ok
                              {| collection := Some [doc_empty];
                                 utcnow := 0 |}
                              (new_monitor EnhancedPollingMonitor []))))).
Proof.
  assert (H : doc_empty ∈ fetched seconds_then_zeros plain_matches
                {| collection := Some [doc_empty]; utcnow := 0 |}
                (new_monitor EnhancedPollingMonitor []))
    by apply list_elem_of_here.
  split; [exact H|].
  exact (proj2 (proj2 (proj2
           (fetched_identifier_stays_seen plain_repr seconds_then_zeros
              plain_matches never_ok (new_monitor EnhancedPollingMonitor [])
              {| collection := Some [doc_empty]; utcnow := 0 |} doc_empty []
              {| collection := Some [doc_empty]; utcnow := 9 |} H)))).
Defined.

(** C3, as the code has it.  Within one poll cycle the documents are handed
    to [process_document], and their texts delivered, in strictly ascending
    order of identifier, whatever the state of the monitor and whatever the
    store returns; a collection holding the identifiers 3, 1, 2 is delivered
    as 1, 2, 3.  (Nothing is said across cycles.) *)
Theorem cycle_delivers_in_ascending_order :
  (forall (py_repr : value -> str) (ObjectId_from_datetime : Z -> Z)
          (query_matches : query -> document -> bool)
          (pyperclip_copy : nat -> str -> bool) (w : world) (m : monitor),
      exists evs : list event,
        log (poll_for_changes py_repr ObjectId_from_datetime query_matches
               pyperclip_copy w m) = log m ++ evs
        /\ StronglySorted Z.lt (processing_ids evs)
        /\ StronglySorted Z.lt (delivered_ids evs))
  /\ ids_of docs_3_1_2 = [3; 1; 2]
  /\ delivered_ids
       (log (poll_for_changes plain_repr seconds_then_zeros plain_matches
               always_ok {| collection := Some docs_3_1_2; utcnow := 0 |}
               (new_monitor MongoDBPollingMonitor [])))
     = [1; 2; 3].
Proof.
  split; [intros; apply cycle_ascending|].
  split; [reflexivity | vm_compute; reflexivity].
Qed.

(** C3, as the claim states it, fails across cycles: [doc_b] is written
    after the first cycle with an identifier of the same second as, and
    smaller than, that of [doc_a]; the second cycle admits it, and it is
    delivered after [doc_a]. *)
Lemma later_cycle_delivers_smaller_identifier :
  let m := start_monitoring plain_repr seconds_then_zeros plain_matches
             always_ok two_cycles (new_monitor MongoDBPollingMonitor []) in
  delivered_ids (log m) = [id_a; id_b]
  /\ delivered_texts (log m) = [u "first"; u "second"]
  /\ id_b < id_a
  /\ ~ StronglySorted Z.lt (delivered_ids (log m)).
Proof.
  assert (H : delivered_ids
                (log (start_monitoring plain_repr seconds_then_zeros
                        plain_matches always_ok two_cycles
                        (new_monitor MongoDBPollingMonitor [])))
              = [id_a; id_b]) by (vm_compute; reflexivity).
  cbn zeta. rewrite H.
  split; [reflexivity|]. split; [vm_compute; reflexivity|].
  split; [vm_compute; reflexivity|].
  intros Hs. apply StronglySorted_inv in Hs as [_ Hs].
  apply Forall_inv in Hs. vm_compute in Hs. discriminate.
Qed.

(** C2, as the code has it.  The base monitor bounds its query by the first
    of [timestamp], [created_at], [createdAt], [date_created] that some
    document of the collection has, and by the ObjectId of the last check
    only when the collection has none of the four; the enhanced monitor
    always bounds by the ObjectId. *)
Theorem base_query_prefers_timestamp_fields
  (ObjectId_from_datetime : Z -> Z)
  (query_matches : query -> document -> bool) :
  (forall (coll : list document) (m : monitor) (last : Z),
      base_query ObjectId_from_datetime query_matches coll
        (set_last_check_time (Some last) m)
      = match List.find (some_document_has query_matches coll)
                timestamp_names with
        | Some field => [(field, Gt (VDate last))]
        | None => [(u "_id", Gt (VObjectId (ObjectId_from_datetime last)))]
        end)
  /\ (forall (m : monitor) (last : Z),
        (u "_id", Gt (VObjectId (ObjectId_from_datetime last)))
        ∈ enhanced_query ObjectId_from_datetime
            (set_last_check_time (Some last) m)).
Proof.
  split.
  - intros coll m last.
    unfold base_query, timestamp_names, some_document_has.
    cbn [last_check_time set_last_check_time timestamp_fields choose_query
           List.find].
    replace (str_eqb (u "timestamp") (u "_id")) with false
      by (vm_compute; reflexivity).
    replace (str_eqb (u "created_at") (u "_id")) with false
      by (vm_compute; reflexivity).
    replace (str_eqb (u "createdAt") (u "_id")) with false
      by (vm_compute; reflexivity).
    replace (str_eqb (u "date_created") (u "_id")) with false
      by (vm_compute; reflexivity).
    replace (str_eqb (u "_id") (u "_id")) with true
      by (vm_compute; reflexivity).
    unfold find_one.
    repeat match goal with
           | |- context [List.find ?f coll] =>
               destruct (List.find f coll); [reflexivity|]
           end.
    reflexivity.
  - intros m last. unfold enhanced_query.
    cbn [last_check_time set_last_check_time]. apply query_set_elem.
Qed.

(** C2, as the claim states it, fails: the collection holds a document with
    a [created_at] field, and the base monitor bounds its query by that
    field, not by the identifier. *)
Lemma created_at_wins_over_identifier :
  let m := set_last_check_time (Some 5000000)
             (new_monitor MongoDBPollingMonitor []) in
  base_query seconds_then_zeros plain_matches [webapp_snippet] m
  = [(u "created_at", Gt (VDate 5000000))]
  /\ base_query seconds_then_zeros plain_matches [webapp_snippet] m
     <> [(u "_id", Gt (VObjectId (seconds_then_zeros 5000000)))].
Proof.
  split; [vm_compute; reflexivity | vm_compute; discriminate].
Qed.

(** C4, on the code.  The clipboard fails for the first document and works
    for the second: both are processed, one text reaches the clipboard, and
    [texts_copied] is 2. *)
Theorem texts_copied_counts_failed_delivery :
  let m := poll_for_changes plain_repr seconds_then_zeros plain_matches
             fails_first
             {| collection := Some [doc_x; doc_y]; utcnow := 0 |}
             (new_monitor EnhancedPollingMonitor []) in
  log m = [Processing 1; DeliveryFailed 1 (u "x");
           Processing 2; Delivered 2 (u "y")]
  /\ delivered_texts (log m) = [u "y"]
  /\ clipboard m = Some (u "y")
  /\ documents_processed (stats m) = 2
  /\ texts_copied (stats m) = 2.
Proof. vm_compute. repeat split; reflexivity. Qed.

Section CounterFacts.

Variable py_repr : value -> str.
Variable ObjectId_from_datetime : Z -> Z.
Variable query_matches : query -> document -> bool.
Variable pyperclip_copy : nat -> str -> bool.

Local Abbreviation process_document' :=
  (process_document py_repr pyperclip_copy).
Local Abbreviation process_all' := (process_all py_repr pyperclip_copy).
Local Abbreviation poll_for_changes' :=
  (poll_for_changes py_repr ObjectId_from_datetime query_matches
     pyperclip_copy).
Local Abbreviation run_cycles' :=
  (run_cycles py_repr ObjectId_from_datetime query_matches pyperclip_copy).
Local Abbreviation start_monitoring' :=
  (start_monitoring py_repr ObjectId_from_datetime query_matches
     pyperclip_copy).
Local Abbreviation lifetime' :=
  (lifetime py_repr ObjectId_from_datetime query_matches pyperclip_copy).

Lemma tally_refl (m : monitor) : tally m m.
Proof.
  exists []. rewrite app_nil_r. cbn. repeat split; lia.
Qed.

Lemma tally_trans (m1 m2 m3 : monitor) :
  tally m1 m2 -> tally m2 m3 -> tally m1 m3.
Proof.
  intros (evs & Hlog & Hc & Hd & Ht) (evs' & Hlog' & Hc' & Hd' & Ht').
  exists (evs ++ evs'). rewrite Hlog', Hlog, <- app_assoc.
  rewrite Hc in Hd', Ht'.
  unfold processing_ids, attempted_texts in *.
  rewrite !omap_app, !length_app.
  repeat split; [congruence | lia | lia].
Qed.

(** Two monitors with the same log, class and counters are alike for
    [tally]. *)
Lemma tally_same (m m' : monitor) :
  log m' = log m -> class m' = class m ->
  documents_processed (stats m') = documents_processed (stats m) ->
  texts_copied (stats m') = texts_copied (stats m) ->
  tally m m'.
Proof.
  intros Hlog Hc Hd Ht. exists []. rewrite app_nil_r. cbn.
  repeat split; [assumption | assumption | lia | lia].
Qed.

Lemma process_document_tally (doc : document) (m : monitor) :
  tally m (process_document' doc m).
Proof.
  unfold tally, process_document, enhanced_process_document,
    base_process_document, copy_to_clipboard.
  destruct (class m) eqn:Hc;
    destruct (extract_text_content py_repr (items doc)) as [[|c cs]|];
    cbn; try destruct (pyperclip_copy _ _); cbn; rewrite ?Hc;
    rewrite <- app_assoc; cbn; eexists; (split; [reflexivity|]); cbn;
    repeat split; lia.
Qed.

Lemma process_all_tally (docs : list document) (m : monitor) :
  tally m (process_all' docs m).
Proof.
  revert m. induction docs as [|d docs IH]; intros m.
  - apply tally_refl.
  - rewrite process_all_cons.
    eapply tally_trans; [apply process_document_tally | apply IH].
Qed.

Lemma poll_tally (w : world) (m : monitor) :
  tally m (poll_for_changes' w m).
Proof.
  rewrite poll_for_changes_spec.
  set (m1 := set_processed_ids _ m).
  exact (process_all_tally _ m1).
Qed.

Lemma run_cycles_tally (ws : list world) (m : monitor) :
  tally m (run_cycles' ws m).
Proof.
  revert m. induction ws as [|w ws IH]; intros m.
  - apply tally_refl.
  - cbn. eapply tally_trans; [apply poll_tally | apply IH].
Qed.

Lemma start_monitoring_tally (s : session) (m : monitor) :
  tally m (start_monitoring' s m).
Proof.
  unfold start_monitoring, enhanced_start_monitoring, base_start_monitoring.
  destruct (class m) eqn:Hc, (connects s).
  - match goal with
    | |- tally m (stop_monitoring (run_cycles _ _ _ _ ?ws ?m0)) =>
        eapply (tally_trans m m0);
          [apply tally_same; reflexivity|];
        eapply tally_trans; [apply (run_cycles_tally ws m0)|];
        apply tally_same; reflexivity
    end.
  - apply tally_refl.
  - match goal with
    | |- tally m (stop_monitoring (run_cycles _ _ _ _ ?ws ?m0)) =>
        eapply (tally_trans m m0);
          [apply tally_same; reflexivity|];
        eapply tally_trans; [apply (run_cycles_tally ws m0)|];
        apply tally_same; reflexivity
    end.
  - apply tally_same; reflexivity.
Qed.

Lemma lifetime_tally (ss : list session) (m : monitor) :
  tally m (lifetime' ss m).
Proof.
  revert m. induction ss as [|s ss IH]; intros m.
  - apply tally_refl.
  - cbn. eapply tally_trans; [apply start_monitoring_tally | apply IH].
Qed.

End CounterFacts.

(** C5, as the code has it.  Starting the enhanced monitor sets the start
    time to the clock at that start and leaves both counters as they are
    (a session stopped before its first cycle returns them unchanged).
    Over the session the log grows by some events and the counters grow by
    exactly what these show: [documents_processed] by the number of
    documents processed, [texts_copied] by the number of calls of
    [pyperclip.copy]; the same holds over any further sessions of the
    object, so nothing is ever reset.  [get_stats] returns exactly these
    counters with this start time and the time since this start, and
    stores the same dict.  The counters are zero in a new monitor. *)
Theorem start_sets_start_time_and_keeps_counters
  (py_repr : value -> str) (ObjectId_from_datetime : Z -> Z)
  (query_matches : query -> document -> bool)
  (pyperclip_copy : nat -> str -> bool)
  (s : session) (m : monitor) (now : Z) :
  class m = EnhancedPollingMonitor ->
  let start := start_monitoring py_repr ObjectId_from_datetime query_matches
                 pyperclip_copy in
  let m' := start s m in
  let reported :=
    {| documents_processed := documents_processed (stats m');
       texts_copied := texts_copied (stats m');
       start_time := Some (clock_at_start s);
       runtime_seconds := Some (now - clock_at_start s) |} in
  start_time (stats m') = Some (clock_at_start s)
  /\ documents_processed (stats m')
     = documents_processed (stats m)
       + Z.of_nat (length (processing_ids (log m')))
       - Z.of_nat (length (processing_ids (log m)))
  /\ texts_copied (stats m) <= texts_copied (stats m')
  /\ runtime_seconds (fst (get_stats now m')) = Some (now - clock_at_start s)
  /\ documents_processed (fst (get_stats now m'))
     = documents_processed (stats m')
  /\ documents_processed (stats (new_monitor (class m) (filters m))) = 0
  /\ texts_copied (stats (new_monitor (class m) (filters m))) = 0
  /\ documents_processed (stats (start (without_cycles s) m))
     = documents_processed (stats m)
  /\ texts_copied (stats (start (without_cycles s) m))
     = texts_copied (stats m)
  /\ (exists evs : list event,
        log m' = log m ++ evs
        /\ documents_processed (stats m')
           = documents_processed (stats m)
             + Z.of_nat (length (processing_ids evs))
        /\ texts_copied (stats m')
           = texts_copied (stats m)
             + Z.of_nat (length (attempted_texts evs)))
  /\ (forall ss : list session,
        exists evs : list event,
          let m'' := lifetime py_repr ObjectId_from_datetime query_matches
                       pyperclip_copy ss m' in
          log m'' = log m' ++ evs
          /\ documents_processed (stats m'')
             = documents_processed (stats m')
               + Z.of_nat (length (processing_ids evs))
          /\ texts_copied (stats m'')
             = texts_copied (stats m')
               + Z.of_nat (length (attempted_texts evs)))
  /\ get_stats now m' = (reported, set_stats reported m').
Proof.
  intros Hclass start m' reported.
  assert (Hstart : start_time (stats m') = Some (clock_at_start s)).
  { subst m' start. unfold start_monitoring. rewrite Hclass.
    unfold enhanced_start_monitoring, base_start_monitoring.
    destruct (connects s); [|reflexivity].
    match goal with
    | |- context [run_cycles _ _ _ _ ?ws ?m0] => set (mm := m0)
    end.
    destruct (run_cycles_counters py_repr ObjectId_from_datetime
                query_matches pyperclip_copy (cycles s) mm) as (_ & Hs & _).
    change (start_time
              (stats (run_cycles py_repr ObjectId_from_datetime
                        query_matches pyperclip_copy (cycles s) mm))
            = Some (clock_at_start s)).
    rewrite Hs. reflexivity. }
  destruct (start_monitoring_tally py_repr ObjectId_from_datetime
              query_matches pyperclip_copy s m)
    as (evs & Hlog & Hc & Hd & Ht).
  fold start in Hlog, Hc, Hd, Ht. fold m' in Hlog, Hc, Hd, Ht.
  rewrite Hclass in Hd, Ht. cbn [counted] in Hd, Ht.
  assert (Hlen : length (processing_ids (log m'))
                 = (length (processing_ids (log m))
                    + length (processing_ids evs))%nat).
  { rewrite Hlog. unfold processing_ids. now rewrite omap_app, length_app. }
  assert (Hstats : get_stats now m' = (reported, set_stats reported m')).
  { unfold get_stats. rewrite Hstart. reflexivity. }
  split; [exact Hstart|]. split; [lia|]. split; [lia|].
  split; [now rewrite Hstats|]. split; [now rewrite Hstats|].
  split; [reflexivity|]. split; [reflexivity|].
  assert (Hidle : documents_processed (stats (start (without_cycles s) m))
                  = documents_processed (stats m)
                  /\ texts_copied (stats (start (without_cycles s) m))
                     = texts_copied (stats m)).
  { subst start. unfold start_monitoring. rewrite Hclass.
    unfold enhanced_start_monitoring, base_start_monitoring, without_cycles.
    cbn [connects cycles]. destruct (connects s); split; reflexivity. }
  split; [exact (proj1 Hidle)|]. split; [exact (proj2 Hidle)|].
  split; [exists evs; repeat split; [exact Hlog | lia | lia]|].
  split; [|exact Hstats].
  intros ss.
  destruct (lifetime_tally py_repr ObjectId_from_datetime query_matches
              pyperclip_copy ss m') as (evs' & Hlog' & _ & Hd' & Ht').
  rewrite Hc, Hclass in Hd', Ht'. cbn [counted] in Hd', Ht'.
  exists evs'. cbn zeta. repeat split; [exact Hlog' | lia | lia].
Qed.

Lemma start_sets_start_time_and_keeps_counters_witness :
  let m := start_monitoring plain_repr seconds_then_zeros plain_matches
             always_ok first_run (new_monitor EnhancedPollingMonitor []) in
  start_time (stats m) = Some 10000000
  /\ documents_processed (stats m) = 1
  /\ get_stats 12000000 m
     = ({| documents_processed := 1; texts_copied := 1;
           start_time := Some 10000000;
           runtime_seconds := Some 2000000 |},
        set_stats {| documents_processed := 1; texts_copied := 1;
                     start_time := Some 10000000;
                     runtime_seconds := Some 2000000 |} m).
Proof.
  destruct (start_sets_start_time_and_keeps_counters plain_repr
              seconds_then_zeros plain_matches always_ok first_run
              (new_monitor EnhancedPollingMonitor []) 12000000 eq_refl)
    as (Hs & Hd & _ & _ & _ & _ & _ & _ & _ & _ & _ & Hg).
  split; [exact Hs|]. split; [exact Hd|]. exact Hg.
Defined.

(** C5, as the claim states it, fails: after a first session that processed
    one document, a second start (here with no cycle before the stop) shows
    the start time of the second start and the counters of the first
    session. *)
Lemma second_start_keeps_counters :
  let m := lifetime plain_repr seconds_then_zeros plain_matches always_ok
             [first_run; second_run]
             (new_monitor EnhancedPollingMonitor []) in
  start_time (stats m) = Some (clock_at_start second_run)
  /\ documents_processed (stats m) = 1
  /\ texts_copied (stats m) = 1
  /\ documents_processed (stats m) <> 0.
Proof. vm_compute. repeat split; discriminate. Qed.

(** * More properties of the code *)

(** ** [rstrip], [splitlines] and [preserve_code_formatting] *)

Lemma drop_spaces_length (s : str) :
  (length (drop_spaces s) <= length s)%nat.
Proof.
  induction s as [|c s IH]; cbn; [lia|].
  destruct (is_space c); cbn; lia.
Qed.

Lemma drop_spaces_fixed (s : str) :
  drop_spaces s = s
  <-> match s with c :: _ => is_space c | [] => false end = false.
Proof.
  destruct s as [|c s]; cbn; [tauto|].
  destruct (is_space c) eqn:Hc; split; try reflexivity; try discriminate.
  intros H. pose proof (drop_spaces_length s) as Hlen.
  rewrite H in Hlen. cbn in Hlen. lia.
Qed.

(** [rstrip] changes nothing exactly on the strings that do not end in a
    space character, and stripping twice is stripping once. *)
Lemma rstrip_fixed_points :
  (forall s : str, rstrip s = s <-> ends_with_space s = false)
  /\ (forall s : str, rstrip (rstrip s) = rstrip s).
Proof.
  assert (H : forall s : str, rstrip s = s <-> ends_with_space s = false).
  { intros s. unfold rstrip, ends_with_space.
    rewrite <- drop_spaces_fixed. split.
    - intros H. apply (f_equal (@rev char)) in H.
      now rewrite rev_involutive in H.
    - intros H. rewrite H. apply rev_involutive. }
  split; [exact H|].
  intros s. apply H, rstrip_no_trailing_space.
Qed.

Lemma splitlines_from_plain (text cur : str) :
  forallb not_linebreak text = true ->
  splitlines_from cur text
  = match rev cur ++ text with
    | [] => []
    | line => [line]
    end.
Proof.
  revert cur. induction text as [|c text IH]; intros cur Hplain.
  - cbn [splitlines_from]. rewrite app_nil_r.
    destruct cur as [|a cur]; [reflexivity|].
    destruct (rev (a :: cur)) eqn:Hr; [|reflexivity].
    apply (f_equal (@length char)) in Hr. rewrite length_rev in Hr.
    discriminate.
  - cbn [forallb] in Hplain. apply andb_true_iff in Hplain as [Hc Hplain].
    cbn [splitlines_from]. unfold not_linebreak in Hc.
    apply negb_true_iff in Hc. rewrite Hc, (IH _ Hplain).
    cbn [rev]. now rewrite <- app_assoc.
Qed.

(** X1.  A text without line-break characters is normalised by stripping
    its end, and nothing else. *)
Theorem single_line_is_rstripped (text : str) :
  forallb not_linebreak text = true ->
  preserve_code_formatting text = rstrip text.
Proof.
  intros Hplain. rewrite preserve_is_normalize_spec.
  unfold normalize_spec, splitlines.
  rewrite splitlines_from_plain by exact Hplain. cbn [rev app].
  destruct text; reflexivity.
Qed.

Lemma single_line_is_rstripped_witness :
  forallb not_linebreak (u "x = 1  ") = true
  /\ preserve_code_formatting (u "x = 1  ") = u "x = 1".
Proof.
  split; [reflexivity|].
  exact (single_line_is_rstripped (u "x = 1  ") eq_refl).
Defined.

Lemma forallb_join (P : char -> bool) (sep : str) (parts : list str) :
  forallb P sep = true -> forallb (forallb P) parts = true ->
  forallb P (join sep parts) = true.
Proof.
  intros Hsep. induction parts as [|p ps IH]; intros Hps; [reflexivity|].
  cbn [forallb] in Hps. apply andb_true_iff in Hps as [Hp Hps].
  destruct ps as [|p' ps']; [exact Hp|].
  change (join sep (p :: p' :: ps')) with (p ++ sep ++ join sep (p' :: ps')).
  rewrite !forallb_app, Hp, Hsep. now apply IH.
Qed.

Lemma forallb_rstrip (P : char -> bool) (line : str) :
  forallb P line = true -> forallb P (rstrip line) = true.
Proof.
  destruct (rstrip_split line) as (ws & Hline & _).
  intros H. rewrite Hline, forallb_app in H.
  now apply andb_true_iff in H as [H _].
Qed.

Lemma preserve_forallb (P : char -> bool) (text : str) :
  P LF = true ->
  (forall c : char, not_linebreak c = true -> P c = true) ->
  forallb P (preserve_code_formatting text) = true.
Proof.
  intros Hlf Hplain. rewrite preserve_is_normalize_spec.
  unfold normalize_spec.
  apply forallb_join; [cbn; now rewrite Hlf|].
  destruct (splitlines_facts text) as [Hlines _].
  induction (splitlines text) as [|l ls IH]; [reflexivity|].
  cbn [forallb List.map] in *. apply andb_true_iff in Hlines as [Hl Hls].
  rewrite (IH Hls), andb_true_r. apply forallb_rstrip.
  rewrite forallb_forall in Hl. apply forallb_forall. intros c Hc.
  apply Hplain, Hl, Hc.
Qed.

(** X2.  In a normalised text the only line-break character is the
    newline: carriage returns, form feeds and the Unicode line and
    paragraph separators of the input are all replaced. *)
Theorem normalized_text_breaks_only_at_newline (text : str) :
  forallb lf_or_plain (preserve_code_formatting text) = true.
Proof.
  apply preserve_forallb; [reflexivity|].
  intros c Hc. unfold lf_or_plain. now rewrite Hc.
Qed.

Lemma splitlines_from_line (line cur rest : str) :
  forallb not_linebreak line = true ->
  splitlines_from cur (line ++ rest) = splitlines_from (rev line ++ cur) rest.
Proof.
  revert cur. induction line as [|c line IH]; intros cur Hplain;
    [reflexivity|].
  cbn [forallb] in Hplain. apply andb_true_iff in Hplain as [Hc Hplain].
  unfold not_linebreak in Hc. apply negb_true_iff in Hc.
  cbn [app splitlines_from rev]. rewrite Hc, (IH _ Hplain).
  now rewrite <- app_assoc.
Qed.

Lemma splitlines_join (lines : list str) :
  forallb (forallb not_linebreak) lines = true ->
  last lines <> Some [] ->
  splitlines (join [LF] lines) = lines.
Proof.
  unfold splitlines.
  induction lines as [|l ls IH]; intros Hplain Hlast; [reflexivity|].
  cbn [forallb] in Hplain. apply andb_true_iff in Hplain as [Hl Hls].
  destruct ls as [|l' ls'].
  - cbn [join]. rewrite splitlines_from_plain by exact Hl. cbn [rev app].
    destruct l; [now contradiction Hlast | reflexivity].
  - change (join [LF] (l :: l' :: ls'))
      with (l ++ LF :: join [LF] (l' :: ls')).
    rewrite splitlines_from_line by exact Hl.
    rewrite app_nil_r. cbn [splitlines_from].
    change (is_linebreak LF) with true. change (N.eqb LF CR) with false.
    cbn match. rewrite rev_involutive. f_equal.
    apply IH; [exact Hls|]. now rewrite last_cons_cons in Hlast.
Qed.

(** X3.  Lines without line-break characters, the last of them not empty,
    come back from [splitlines] after being joined by newlines; when
    moreover no line ends in a space character, the joined text is left
    unchanged by the normalisation. *)
Theorem clean_text_is_unchanged (lines : list str) :
  forallb (forallb not_linebreak) lines = true ->
  last lines <> Some [] ->
  splitlines (join [LF] lines) = lines
  /\ (forallb no_trailing_space lines = true ->
      preserve_code_formatting (join [LF] lines) = join [LF] lines).
Proof.
  intros Hplain Hlast.
  pose proof (splitlines_join lines Hplain Hlast) as Hsplit.
  split; [exact Hsplit|].
  intros Hclean. rewrite preserve_is_normalize_spec. unfold normalize_spec.
  rewrite Hsplit. f_equal. clear Hplain Hlast Hsplit.
  induction lines as [|l ls IH]; [reflexivity|].
  cbn [forallb] in Hclean. apply andb_true_iff in Hclean as [Hl Hls].
  cbn [List.map]. rewrite (IH Hls). f_equal.
  apply (proj1 rstrip_fixed_points).
  unfold no_trailing_space in Hl. now apply negb_true_iff in Hl.
Qed.

Lemma clean_text_is_unchanged_witness :
  let lines := [u "def f():"; u "    return 1"; []; u "f()"] in
  splitlines (join [LF] lines) = lines
  /\ preserve_code_formatting (join [LF] lines) = join [LF] lines.
Proof.
  destruct (clean_text_is_unchanged
              [u "def f():"; u "    return 1"; []; u "f()"] eq_refl)
    as [Hsplit Hsame]; [vm_compute; discriminate|].
  split; [exact Hsplit | exact (Hsame eq_refl)].
Defined.

Lemma splitlines_from_weight (n : nat) :
  forall text cur : str, (length text <= n)%nat ->
    (lines_weight (splitlines_from cur text)
     <= length cur + length text + 1)%nat.
Proof.
  induction n as [|n IH]; intros text cur Hlen.
  - destruct text; [|cbn in Hlen; lia].
    destruct cur; cbn [splitlines_from lines_weight length];
      rewrite ?length_rev; cbn [length]; lia.
  - destruct text as [|c rest].
    + apply (IH [] cur). cbn. lia.
    + cbn [length] in Hlen. cbn [splitlines_from].
      destruct (is_linebreak c).
      * cbn [lines_weight]. rewrite length_rev.
        pose proof (IH rest [] ltac:(lia)) as Hrest. cbn [length] in Hrest.
        destruct (N.eqb c CR); [|cbn [length]; lia].
        destruct rest as [|c' rest']; [cbn [length] in *; lia|].
        destruct (N.eqb c' LF); [|cbn [length] in *; lia].
        cbn [length] in *.
        pose proof (IH rest' [] ltac:(lia)) as Hrest'. cbn [length] in Hrest'.
        lia.
      * pose proof (IH rest (c :: cur) ltac:(lia)) as Hrest.
        cbn [length] in *. lia.
Qed.

Lemma join_length (lines : list str) :
  (length (join [LF] lines) + 1 <= lines_weight lines + 1)%nat
  /\ (lines <> [] ->
      (length (join [LF] lines) + 1 = lines_weight lines)%nat).
Proof.
  induction lines as [|l ls [IHle IHeq]]; [split; [cbn; lia | congruence]|].
  destruct ls as [|l' ls'].
  - cbn. split; lia.
  - change (join [LF] (l :: l' :: ls'))
      with (l ++ LF :: join [LF] (l' :: ls')).
    rewrite length_app. cbn [length lines_weight] in *.
    specialize (IHeq ltac:(discriminate)). split; intros; lia.
Qed.

Lemma rstrip_length (line : str) : (length (rstrip line) <= length line)%nat.
Proof.
  unfold rstrip. rewrite length_rev.
  pose proof (drop_spaces_length (rev line)) as H.
  now rewrite length_rev in H.
Qed.

Lemma lines_weight_rstrip (lines : list str) :
  (lines_weight (List.map rstrip lines) <= lines_weight lines)%nat.
Proof.
  induction lines as [|l ls IH]; cbn [List.map lines_weight]; [lia|].
  pose proof (rstrip_length l). lia.
Qed.

(** X4.  Normalisation never makes a text longer. *)
Theorem normalized_text_is_not_longer (text : str) :
  (length (preserve_code_formatting text) <= length text)%nat.
Proof.
  rewrite preserve_is_normalize_spec. unfold normalize_spec.
  pose proof (splitlines_from_weight (length text) text [] ltac:(lia)) as Hw.
  fold (splitlines text) in Hw. cbn [length] in Hw.
  pose proof (lines_weight_rstrip (splitlines text)) as Hr.
  destruct (join_length (List.map rstrip (splitlines text))) as [_ Heq].
  destruct (splitlines text) as [|l ls] eqn:Hs; [cbn; lia|].
  specialize (Heq ltac:(discriminate)). lia.
Qed.

(** ** More on extraction *)

Lemma alias_names_are_plain :
  forallb (fun f => negb (startswith f (u "_"))) text_fields = true.
Proof. reflexivity. Qed.

Lemma underscore_key_is_no_alias (key field : str) :
  startswith key (u "_") = true -> In field text_fields ->
  str_eqb key field = false.
Proof.
  intros Hkey Hin. destruct (str_eqb key field) eqn:Heq; [|reflexivity].
  apply str_eqb_eq in Heq. subst field.
  pose proof alias_names_are_plain as H. rewrite forallb_forall in H.
  specialize (H key Hin). now rewrite Hkey in H.
Qed.

Lemma dict_get_without (pre post : dict) (key field : str) (v : value) :
  str_eqb key field = false ->
  dict_get (pre ++ (key, v) :: post) field = dict_get (pre ++ post) field.
Proof.
  intros Hne. induction pre as [|[k x] pre IH]; cbn [app dict_get].
  - now rewrite Hne.
  - now rewrite IH.
Qed.

Lemma first_text_field_agree (py_repr : value -> str) (fs : list str)
  (d d' : dict) :
  (forall f, In f fs -> dict_get d' f = dict_get d f) ->
  first_text_field py_repr fs d' = first_text_field py_repr fs d.
Proof.
  induction fs as [|f fs IH]; intros Hget; [reflexivity|].
  cbn [first_text_field]. rewrite (Hget f) by now left.
  rewrite IH; [reflexivity|]. intros g Hg. apply Hget. now right.
Qed.

Lemma scan_items_without (py_repr : value -> str) (pre post : dict)
  (key : str) (v : value) :
  startswith key (u "_") = true ->
  scan_items (extract_of_value py_repr) (pre ++ (key, v) :: post)
  = scan_items (extract_of_value py_repr) (pre ++ post).
Proof.
  intros Hkey. induction pre as [|kv pre IH].
  - cbn [app]. rewrite scan_items_cons. cbn [fst]. now rewrite Hkey.
  - rewrite <- !app_comm_cons, !scan_items_cons, IH. reflexivity.
Qed.

(** X5.  A field whose name begins with "_" has no part in extraction:
    the record gives the same result with and without it, whatever the
    field holds.  So the [_id] of a stored document is never its payload. *)
Theorem underscore_fields_are_invisible (py_repr : value -> str)
  (pre post : dict) (key : str) (v : value) :
  startswith key (u "_") = true ->
  extract_text_content py_repr (pre ++ (key, v) :: post)
  = extract_text_content py_repr (pre ++ post).
Proof.
  intros Hkey. rewrite !extract_unfold.
  rewrite (first_text_field_agree py_repr text_fields (pre ++ post)).
  - now rewrite scan_items_without.
  - intros f Hf. apply dict_get_without.
    now apply underscore_key_is_no_alias.
Qed.

Lemma underscore_fields_are_invisible_witness :
  extract_text_content plain_repr (items doc_x)
  = extract_text_content plain_repr (fields doc_x).
Proof.
  exact (underscore_fields_are_invisible plain_repr [] (fields doc_x)
           (u "_id") (VObjectId (_id doc_x)) eq_refl).
Defined.

Lemma first_text_field_normalized (py_repr : value -> str) (fs : list str)
  (d : dict) (t : str) :
  first_text_field py_repr fs d = Some t ->
  exists s : str, t = preserve_code_formatting s.
Proof.
  induction fs as [|f fs IH]; cbn [first_text_field]; [discriminate|].
  destruct (dict_get d f) as [v|]; [|exact IH].
  destruct (truthy v); [|exact IH].
  intros [= <-]. now eexists.
Qed.

Lemma scan_items_result (py_repr : value -> str) (P : str -> Prop)
  (d : dict) (t : str) :
  (forall s : str, P (preserve_code_formatting s)) ->
  (forall (k : str) (nested : dict) (t' : str),
      In (k, VDict nested) d ->
      extract_text_content py_repr nested = Some t' -> P t') ->
  scan_items (extract_of_value py_repr) d = Some t -> P t.
Proof.
  intros Hnorm. induction d as [|[k x] d IH]; intros Hnested;
    [discriminate|].
  rewrite scan_items_cons. cbn [fst snd].
  assert (Hrest : scan_items (extract_of_value py_repr) d = Some t -> P t).
  { apply IH. intros k' n t' Hin. apply (Hnested k' n t'). now right. }
  destruct (startswith k (u "_")); [exact Hrest|].
  destruct x; try exact Hrest.
  - destruct (10 <? length s)%nat; [|exact Hrest].
    intros [= <-]. apply Hnorm.
  - destruct (truthy_text (extract_text_content py_repr entries));
      [|exact Hrest].
    intros Ht. apply (Hnested k entries t); [now left | exact Ht].
Qed.

Lemma value_size_entry (k : str) (x : value) (d : dict) :
  In (k, x) d -> (value_size x < value_size (VDict d))%nat.
Proof.
  induction d as [|[k' x'] d IH]; intros Hin; [contradiction|].
  cbn [value_size] in *. destruct Hin as [[= -> ->]|Hin]; [lia|].
  specialize (IH Hin). lia.
Qed.

Lemma extract_normalized_sized (py_repr : value -> str) (n : nat) :
  forall (d : dict) (t : str),
    (value_size (VDict d) <= n)%nat ->
    extract_text_content py_repr d = Some t ->
    exists s : str, t = preserve_code_formatting s.
Proof.
  induction n as [|n IH]; intros d t Hsize; [cbn in Hsize; lia|].
  rewrite extract_unfold.
  destruct (first_text_field py_repr text_fields d) as [t0|] eqn:Hfirst.
  - intros [= <-]. eapply first_text_field_normalized, Hfirst.
  - intros Hscan.
    apply (scan_items_result py_repr
             (fun t => exists s : str, t = preserve_code_formatting s) d t);
      [intros s; now eexists | | exact Hscan].
    intros k nested t' Hin. apply IH.
    apply value_size_entry in Hin. lia.
Qed.

(** X6.  Whatever extraction returns, from an alias field, from a long
    string or from a nested record at any depth, is a normalised text: it
    is [preserve_code_formatting] of some string, and so its only line
    breaks are newlines. *)
Theorem extracted_text_is_normalized (py_repr : value -> str)
  (document : dict) (t : str) :
  extract_text_content py_repr document = Some t ->
  (exists s : str, t = preserve_code_formatting s)
  /\ forallb lf_or_plain t = true.
Proof.
  intros Ht.
  destruct (extract_normalized_sized py_repr _ document t (le_n _) Ht)
    as [s ->].
  split; [now exists s|].
  apply preserve_forallb; [reflexivity|].
  intros c Hc. unfold lf_or_plain. now rewrite Hc.
Qed.

Lemma extracted_text_is_normalized_witness :
  extract_text_content plain_repr details_before_summary = Some nested_note
  /\ forallb lf_or_plain nested_note = true.
Proof.
  split; [vm_compute; reflexivity|].
  exact (proj2 (extracted_text_is_normalized plain_repr
                  details_before_summary nested_note eq_refl)).
Defined.

(** ** More on the poll cycle *)

Lemma sort_desc_elem (x : document) (l : list document) :
  x ∈ sort_desc l <-> x ∈ l.
Proof.
  induction l as [|d l IH]; cbn; [reflexivity|].
  rewrite insert_desc_elem, elem_of_cons, IH. reflexivity.
Qed.

Lemma insert_desc_length (d : document) (l : list document) :
  length (insert_desc d l) = S (length l).
Proof.
  induction l as [|y l IH]; cbn; [reflexivity|].
  destruct (_id y <=? _id d); cbn; [reflexivity | now rewrite IH].
Qed.

Lemma sort_desc_length (l : list document) :
  length (sort_desc l) = length l.
Proof.
  unfold sort_desc. induction l as [|d l IH]; cbn [fold_right];
    [reflexivity|].
  now rewrite insert_desc_length, IH.
Qed.

Lemma admitted_all_seen (docs : list document) (ids : gset Z) :
  Forall (fun d => _id d ∈ ids) docs -> admitted docs ids = [].
Proof.
  induction 1 as [|d docs Hd Hdocs IH]; cbn; [reflexivity|].
  case_bool_decide; [exact IH | contradiction].
Qed.

Section MoreMonitorFacts.

Variable py_repr : value -> str.
Variable ObjectId_from_datetime : Z -> Z.
Variable query_matches : query -> document -> bool.
Variable pyperclip_copy : nat -> str -> bool.

Local Abbreviation fetched' := (fetched ObjectId_from_datetime query_matches).
Local Abbreviation current_query' :=
  (current_query ObjectId_from_datetime query_matches).
Local Abbreviation process_document' :=
  (process_document py_repr pyperclip_copy).
Local Abbreviation process_all' := (process_all py_repr pyperclip_copy).
Local Abbreviation poll_for_changes' :=
  (poll_for_changes py_repr ObjectId_from_datetime query_matches
     pyperclip_copy).
Local Abbreviation run_cycles' :=
  (run_cycles py_repr ObjectId_from_datetime query_matches pyperclip_copy).
Local Abbreviation start_monitoring' :=
  (start_monitoring py_repr ObjectId_from_datetime query_matches
     pyperclip_copy).
Local Abbreviation lifetime' :=
  (lifetime py_repr ObjectId_from_datetime query_matches pyperclip_copy).

Lemma set_last_check_time_processed (t : option Z) (ids : gset Z)
  (m : monitor) :
  ids = processed_ids m ->
  set_last_check_time t (set_processed_ids ids m) = set_last_check_time t m.
Proof. intros ->. now destruct m. Qed.

(** X7.  A cycle in which every fetched document has been seen before (or
    nothing is fetched at all) changes the cursor and nothing else: no
    processing, no log line, no counter, no clipboard call, the same
    seen-set. *)
Theorem cycle_without_news_only_moves_cursor (w : world) (m : monitor) :
  Forall (fun d => _id d ∈ processed_ids m) (fetched' w m) ->
  poll_for_changes' w m = set_last_check_time (Some (utcnow w)) m.
Proof.
  intros Hseen. rewrite poll_for_changes_spec.
  rewrite admitted_all_seen by exact Hseen. cbn [rev].
  change (process_all' [] ?x) with x.
  apply set_last_check_time_processed. apply set_eq. intros x.
  rewrite elem_of_union, elem_of_list_to_set. split; [|now left].
  intros [Hx|Hx]; [exact Hx|].
  unfold ids_of in Hx. apply list_elem_of_fmap in Hx as (d & -> & Hd).
  rewrite Forall_forall in Hseen. now apply Hseen.
Qed.

(** X8.  When the store raises, the cycle is one with no documents: the
    cursor moves to the clock and the monitor is otherwise as before. *)
Theorem store_failure_only_moves_cursor (now : Z) (m : monitor) :
  poll_for_changes' {| collection := None; utcnow := now |} m
  = set_last_check_time (Some now) m.
Proof.
  rewrite poll_for_changes_spec.
  change (fetched' {| collection := None; utcnow := now |} m)
    with (@nil document).
  cbn [admitted rev ids_of List.map list_to_set utcnow].
  change (process_all' [] ?x) with x.
  apply set_last_check_time_processed. apply (right_id_L ∅ (∪)).
Qed.

Lemma fetched_elem (w : world) (m : monitor) (d : document) :
  d ∈ fetched' w m ->
  exists coll : list document,
    collection w = Some coll /\ d ∈ coll
    /\ query_matches (current_query' coll m) d = true.
Proof.
  unfold fetched, find_sorted_limited.
  destruct (collection w) as [coll|]; [|intros H; now apply elem_of_nil in H].
  intros Hd. exists coll. split; [reflexivity|].
  assert (Hin : d ∈ sort_desc (List.filter
                                 (query_matches (current_query' coll m)) coll))
    by (eapply elem_of_sublist; [exact Hd | apply sublist_take]).
  apply sort_desc_elem, list_elem_of_In, filter_In in Hin as [Hin Hm].
  split; [now apply list_elem_of_In | exact Hm].
Qed.

Lemma fetched_length (w : world) (m : monitor) :
  (length (fetched' w m) <= 100)%nat.
Proof.
  unfold fetched, find_sorted_limited.
  destruct (collection w); [|cbn; lia].
  rewrite length_take. lia.
Qed.

(** X9.  One cycle hands at most 100 documents to [process_document], and
    each of them is a document of the collection that satisfies the query
    of the cycle and whose identifier was not in the seen-set. *)
Theorem cycle_processes_matching_unseen_documents (w : world) (m : monitor) :
  exists evs : list event,
    log (poll_for_changes' w m) = log m ++ evs
    /\ (length (processing_ids evs) <= 100)%nat
    /\ Forall (fun x : Z =>
                 (x ∉ processed_ids m)
                 /\ exists (coll : list document) (d : document),
                      collection w = Some coll /\ d ∈ coll /\ _id d = x
                      /\ query_matches (current_query' coll m) d = true)
              (processing_ids evs).
Proof.
  destruct (poll_log py_repr ObjectId_from_datetime query_matches
              pyperclip_copy w m) as (evs & Hlog & Hp & _).
  exists evs. split; [exact Hlog|]. rewrite Hp. split.
  - unfold ids_of. rewrite length_map, length_rev.
    pose proof (sublist_length _ _
                  (admitted_sublist (fetched' w m) (processed_ids m))).
    pose proof (fetched_length w m). lia.
  - apply Forall_forall. intros x Hx.
    rewrite ids_of_rev, elem_of_rev in Hx. split.
    + now apply admitted_fresh in Hx.
    + unfold ids_of in Hx. apply list_elem_of_fmap in Hx as (d & -> & Hd).
      apply (elem_of_sublist _ (fetched' w m)) in Hd;
        [|apply admitted_sublist].
      apply fetched_elem in Hd as (coll & Hc & Hin & Hm).
      exists coll, d. repeat split; assumption.
Qed.

(** X10.  When at most 100 documents of the collection satisfy the query,
    none is left behind: after the cycle each of them is in the seen-set,
    and each that was not there before has been handed to
    [process_document] in this cycle. *)
Theorem cycle_under_the_cap_is_complete (w : world) (m : monitor)
  (coll : list document) (d : document) :
  collection w = Some coll ->
  (length (List.filter (query_matches (current_query' coll m)) coll)
   <= 100)%nat ->
  d ∈ coll ->
  query_matches (current_query' coll m) d = true ->
  _id d ∈ processed_ids (poll_for_changes' w m)
  /\ exists evs : list event,
       log (poll_for_changes' w m) = log m ++ evs
       /\ (_id d ∈ processed_ids m \/ _id d ∈ processing_ids evs).
Proof.
  intros Hcoll Hcap Hin Hmatch.
  assert (Hf : d ∈ fetched' w m).
  { unfold fetched, find_sorted_limited. rewrite Hcoll.
    rewrite take_ge by (rewrite sort_desc_length; exact Hcap).
    apply sort_desc_elem, list_elem_of_In, filter_In.
    split; [now apply list_elem_of_In | exact Hmatch]. }
  assert (Hid : _id d ∈ ids_of (fetched' w m))
    by (unfold ids_of; now apply (list_elem_of_fmap_2 _id)).
  split.
  - destruct (poll_frame py_repr ObjectId_from_datetime query_matches
                pyperclip_copy w m) as (_ & -> & _).
    apply elem_of_union. right. now apply elem_of_list_to_set.
  - destruct (poll_log py_repr ObjectId_from_datetime query_matches
                pyperclip_copy w m) as (evs & Hlog & Hp & _).
    exists evs. split; [exact Hlog|].
    destruct (decide (_id d ∈ processed_ids m)) as [Hseen|Hnew];
      [now left|].
    right. rewrite Hp, ids_of_rev, elem_of_rev.
    now apply admitted_covers.
Qed.

(** X11.  When more documents satisfy the query than the limit lets
    through, the ones fetched are the ones with the greatest identifiers:
    no matching document left out has a greater identifier than a fetched
    one. *)
Theorem limit_keeps_the_greatest_identifiers (w : world) (m : monitor)
  (coll : list document) (d d' : document) :
  collection w = Some coll ->
  d ∈ fetched' w m ->
  d' ∈ coll ->
  query_matches (current_query' coll m) d' = true ->
  d' ∉ fetched' w m ->
  _id d' <= _id d.
Proof.
  unfold fetched, find_sorted_limited. intros -> Hd Hin Hmatch Hout.
  set (l := sort_desc (List.filter (query_matches (current_query' coll m))
                         coll)) in *.
  assert (Hl : d' ∈ l).
  { apply sort_desc_elem, list_elem_of_In, filter_In.
    split; [now apply list_elem_of_In | exact Hmatch]. }
  pose proof (sort_desc_sorted
                (List.filter (query_matches (current_query' coll m)) coll))
    as Hsorted.
  fold l in Hsorted. rewrite <- (take_drop 100 l) in Hl, Hsorted.
  apply elem_of_app in Hl as [Hl|Hl]; [contradiction|].
  exact (StronglySorted_app_1_elem_of ge_id _ _ d d' Hsorted Hd Hl).
Qed.

End MoreMonitorFacts.

Lemma cycle_without_news_only_moves_cursor_witness :
  let m := poll_for_changes plain_repr seconds_then_zeros plain_matches
             always_ok {| collection := Some [doc_x]; utcnow := 1 |}
             (new_monitor EnhancedPollingMonitor []) in
  poll_for_changes plain_repr seconds_then_zeros plain_matches always_ok
    {| collection := Some [doc_x]; utcnow := 2 |} m
  = set_last_check_time (Some 2) m.
Proof.
  apply (cycle_without_news_only_moves_cursor plain_repr seconds_then_zeros
           plain_matches always_ok
           {| collection := Some [doc_x]; utcnow := 2 |}).
  apply (bool_decide_unpack _). vm_compute. reflexivity.
Defined.

Lemma cycle_under_the_cap_is_complete_witness :
  let w := {| collection := Some [doc_x; doc_y]; utcnow := 1 |} in
  let m := new_monitor EnhancedPollingMonitor [] in
  _id doc_y ∈ processed_ids
                (poll_for_changes plain_repr seconds_then_zeros plain_matches
                   never_ok w m).
Proof.
  refine (proj1 (cycle_under_the_cap_is_complete plain_repr
                   seconds_then_zeros plain_matches never_ok
                   {| collection := Some [doc_x; doc_y]; utcnow := 1 |}
                   (new_monitor EnhancedPollingMonitor [])
                   [doc_x; doc_y] doc_y eq_refl _ _ eq_refl)).
  - vm_compute. lia.
  - apply list_elem_of_further, list_elem_of_here.
Defined.

Lemma limit_keeps_the_greatest_identifiers_witness :
  let w := {| collection := Some many_docs; utcnow := 1 |} in
  let m := new_monitor EnhancedPollingMonitor [] in
  length (fetched seconds_then_zeros plain_matches w m) = 100%nat
  /\ _id (doc 1 []) <= _id (doc 101 []).
Proof.
  split; [vm_compute; reflexivity|].
  refine (limit_keeps_the_greatest_identifiers seconds_then_zeros
            plain_matches
            {| collection := Some many_docs; utcnow := 1 |}
            (new_monitor EnhancedPollingMonitor [])
            many_docs (doc 101 []) (doc 1 []) eq_refl _ _ eq_refl _).
  - apply list_elem_of_here.
  - apply list_elem_of_here.
  - intros H. apply (list_elem_of_fmap_2 _id) in H. revert H.
    apply (bool_decide_unpack _). vm_compute. reflexivity.
Defined.

(** ** The clipboard, the counters and the cursor over a lifetime *)

Section LifetimeFacts.

Variable py_repr : value -> str.
Variable ObjectId_from_datetime : Z -> Z.
Variable query_matches : query -> document -> bool.
Variable pyperclip_copy : nat -> str -> bool.

Local Abbreviation process_document' :=
  (process_document py_repr pyperclip_copy).
Local Abbreviation process_all' := (process_all py_repr pyperclip_copy).
Local Abbreviation poll_for_changes' :=
  (poll_for_changes py_repr ObjectId_from_datetime query_matches
     pyperclip_copy).
Local Abbreviation run_cycles' :=
  (run_cycles py_repr ObjectId_from_datetime query_matches pyperclip_copy).
Local Abbreviation start_monitoring' :=
  (start_monitoring py_repr ObjectId_from_datetime query_matches
     pyperclip_copy).
Local Abbreviation lifetime' :=
  (lifetime py_repr ObjectId_from_datetime query_matches pyperclip_copy).

Lemma outside_agrees_same (m m' : monitor) :
  log m' = log m -> clipboard m' = clipboard m -> class m' = class m ->
  documents_processed (stats m') = documents_processed (stats m) ->
  texts_copied (stats m') = texts_copied (stats m) ->
  outside_agrees m -> outside_agrees m'.
Proof.
  unfold outside_agrees, clipboard_follows, stats_match.
  now intros -> -> -> -> ->.
Qed.

Lemma process_document_agrees (doc : document) (m : monitor) :
  outside_agrees m -> outside_agrees (process_document' doc m).
Proof.
  unfold outside_agrees, clipboard_follows, stats_match, process_document,
    enhanced_process_document, base_process_document, copy_to_clipboard,
    delivered_texts, delivered_ids, attempted_texts, processing_ids.
  intros (Hclip & Hdocs & Htexts & Hle).
  destruct (class m) eqn:Hc;
    destruct (extract_text_content py_repr (items doc)) as [[|c cs]|];
    cbn; try destruct (pyperclip_copy _ _); cbn; rewrite ?Hc;
    rewrite ?omap_app, ?length_app; cbn; rewrite ?app_nil_r, ?last_snoc;
    cbn [counted] in *; (split; [first [reflexivity | exact Hclip]|]);
    repeat split; lia.
Qed.

Lemma process_all_agrees (docs : list document) (m : monitor) :
  outside_agrees m -> outside_agrees (process_all' docs m).
Proof.
  revert m. induction docs as [|d docs IH]; intros m Hm; [exact Hm|].
  rewrite process_all_cons. apply IH, process_document_agrees, Hm.
Qed.

Lemma poll_agrees (w : world) (m : monitor) :
  outside_agrees m -> outside_agrees (poll_for_changes' w m).
Proof.
  intros Hm. rewrite poll_for_changes_spec.
  set (m1 := set_processed_ids _ m).
  assert (H1 : outside_agrees m1) by exact Hm.
  exact (process_all_agrees _ m1 H1).
Qed.

Lemma run_cycles_agrees (ws : list world) (m : monitor) :
  outside_agrees m -> outside_agrees (run_cycles' ws m).
Proof.
  revert m. induction ws as [|w ws IH]; intros m Hm; [exact Hm|].
  cbn. apply IH, poll_agrees, Hm.
Qed.

Lemma start_monitoring_agrees (s : session) (m : monitor) :
  outside_agrees m -> outside_agrees (start_monitoring' s m).
Proof.
  intros Hm.
  unfold start_monitoring, enhanced_start_monitoring, base_start_monitoring.
  destruct (class m) eqn:Hc, (connects s).
  - eapply outside_agrees_same; try reflexivity.
    apply run_cycles_agrees.
    eapply outside_agrees_same; [..|exact Hm]; reflexivity.
  - exact Hm.
  - eapply outside_agrees_same; try reflexivity.
    apply run_cycles_agrees.
    eapply outside_agrees_same; [..|exact Hm]; reflexivity.
  - eapply outside_agrees_same; [..|exact Hm]; reflexivity.
Qed.

Lemma lifetime_agrees (ss : list session) (m : monitor) :
  outside_agrees m -> outside_agrees (lifetime' ss m).
Proof.
  revert m. induction ss as [|s ss IH]; intros m Hm; [exact Hm|].
  cbn. apply IH, start_monitoring_agrees, Hm.
Qed.

Lemma new_monitor_agrees (c : monitor_class) (flt : dict) :
  outside_agrees (new_monitor c flt).
Proof.
  unfold outside_agrees, clipboard_follows, stats_match. cbn.
  repeat split; lia.
Qed.

Lemma lifetime_class (ss : list session) (m : monitor) :
  class (lifetime' ss m) = class m.
Proof.
  revert m. induction ss as [|s ss IH]; intros m; [reflexivity|].
  change (lifetime' (s :: ss) m) with (lifetime' ss (start_monitoring' s m)).
  rewrite IH.
  unfold start_monitoring, enhanced_start_monitoring, base_start_monitoring.
  destruct (class m) eqn:Hc, (connects s); try exact Hc.
  - unfold stop_monitoring. cbn [class set_is_monitoring].
    now destruct (run_cycles_counters py_repr ObjectId_from_datetime
                    query_matches pyperclip_copy (cycles s)
                    (set_last_check_time
                       (Some (clock_at_connect s - five_seconds))
                       (set_is_monitoring true m))) as (-> & _).
  - unfold stop_monitoring. cbn [class set_is_monitoring].
    match goal with
    | |- class (run_cycles _ _ _ _ _ ?m0) = _ =>
        now destruct (run_cycles_counters py_repr ObjectId_from_datetime
                        query_matches pyperclip_copy (cycles s) m0)
          as (-> & _)
    end.
Qed.

(** X12.  Over the whole life of a monitor, the clipboard holds the text of
    the last successful delivery (and nothing, as far as the monitor is
    concerned, before the first one): a failed call of [pyperclip.copy]
    and a document without text leave it as it is. *)
Theorem clipboard_holds_last_delivered_text
  (c : monitor_class) (flt : dict) (ss : list session) :
  let m := lifetime' ss (new_monitor c flt) in
  clipboard m = last (delivered_texts (log m)).
Proof.
  exact (proj1 (lifetime_agrees ss _ (new_monitor_agrees c flt))).
Qed.

(** X13.  Over the whole life of an enhanced monitor,
    [documents_processed] is the number of documents handed to
    [process_document] and [texts_copied] is the number of calls of
    [pyperclip.copy], successful or not; so deliveries <= [texts_copied]
    <= [documents_processed]. *)
Theorem counters_count_documents_and_copy_calls
  (flt : dict) (ss : list session) :
  let m := lifetime' ss (new_monitor EnhancedPollingMonitor flt) in
  documents_processed (stats m) = Z.of_nat (length (processing_ids (log m)))
  /\ texts_copied (stats m) = Z.of_nat (length (attempted_texts (log m)))
  /\ Z.of_nat (length (delivered_ids (log m))) <= texts_copied (stats m)
  /\ texts_copied (stats m) <= documents_processed (stats m).
Proof.
  intros m.
  destruct (lifetime_agrees ss _
              (new_monitor_agrees EnhancedPollingMonitor flt))
    as (_ & Hd & Ht & Hle).
  fold m in Hd, Ht, Hle.
  assert (Hc : class m = EnhancedPollingMonitor)
    by (unfold m; now rewrite lifetime_class).
  rewrite Hc in Hd, Ht. cbn [counted] in Hd, Ht.
  repeat split; lia.
Qed.

Lemma cursor_after_cons (w : world) (ws : list world) (before : option Z) :
  cursor_after (w :: ws) before = cursor_after ws (Some (utcnow w)).
Proof.
  unfold cursor_after. destruct ws as [|w' ws']; [reflexivity|].
  rewrite last_cons_cons.
  destruct (last (w' :: ws')) eqn:Hl; [reflexivity|].
  now apply last_None in Hl.
Qed.

Lemma run_cycles_cursor (ws : list world) (m : monitor) :
  last_check_time (run_cycles' ws m) = cursor_after ws (last_check_time m)
  /\ is_monitoring (run_cycles' ws m) = is_monitoring m.
Proof.
  revert m. induction ws as [|w ws IH]; intros m; [split; reflexivity|].
  cbn [run_cycles fold_left].
  destruct (IH (poll_for_changes' w m)) as [Hl Hi].
  unfold run_cycles in Hl, Hi. rewrite Hl, Hi, cursor_after_cons.
  destruct (poll_frame py_repr ObjectId_from_datetime query_matches
              pyperclip_copy w m) as (_ & _ & _ & -> & _ & ->).
  split; reflexivity.
Qed.

(** X14.  What a call of [start_monitoring] leaves behind.  When [connect]
    fails no cycle runs: log, seen-set, cursor, clipboard and the running
    flag are as before (the flag is not touched).  When it succeeds the
    running flag is false on return, and the cursor is the clock at the end
    of the last cycle, or five seconds before the start when no cycle
    ran. *)
Theorem session_outcome (s : session) (m : monitor) :
  let m' := start_monitoring' s m in
  if connects s then
    is_monitoring m' = false
    /\ last_check_time m'
       = cursor_after (cycles s) (Some (clock_at_connect s - five_seconds))
  else
    log m' = log m /\ processed_ids m' = processed_ids m
    /\ last_check_time m' = last_check_time m
    /\ is_monitoring m' = is_monitoring m
    /\ clipboard m' = clipboard m.
Proof.
  unfold start_monitoring, enhanced_start_monitoring, base_start_monitoring.
  destruct (class m), (connects s); cbn zeta;
    try (repeat split; reflexivity).
  - split; [reflexivity|]. unfold stop_monitoring.
    cbn [last_check_time set_is_monitoring].
    now rewrite (proj1 (run_cycles_cursor _ _)).
  - split; [reflexivity|]. unfold stop_monitoring.
    cbn [last_check_time set_is_monitoring].
    now rewrite (proj1 (run_cycles_cursor _ _)).
Qed.

End LifetimeFacts.

(** ** The query of the enhanced monitor *)

Lemma query_set_spec (q : query) (key k : str) (c c' : condition) :
  NoDup (List.map fst q) ->
  (k, c') ∈ query_set q key c
  <-> (k = key /\ c' = c) \/ (k <> key /\ (k, c') ∈ q).
Proof.
  induction q as [|[k0 c0] q IH]; intros Hnd; cbn [query_set].
  - rewrite list_elem_of_singleton, elem_of_nil. split.
    + intros [= -> ->]. now left.
    + intros [[-> ->]|[_ []]]. reflexivity.
  - cbn [List.map fst] in Hnd. apply NoDup_cons in Hnd as [Hnotin Hnd].
    destruct (str_eqb k0 key) eqn:Hk.
    + apply str_eqb_eq in Hk. subst k0. rewrite !elem_of_cons. split.
      * intros [[= -> ->]|Hin]; [now left|]. right. split; [|now right].
        intros ->. apply Hnotin.
        now apply (list_elem_of_fmap_2 fst) in Hin.
      * intros [[-> ->]|[Hne [[= -> _]|Hin]]];
          [now left | contradiction | now right].
    + assert (Hne : k0 <> key).
      { intros ->. assert (str_eqb key key = true) by now apply str_eqb_eq.
        congruence. }
      rewrite !elem_of_cons, (IH Hnd). split.
      * intros [[= -> ->]|[[-> ->]|[Hk' Hin]]];
          [right; split; [exact Hne | now left] | now left
          | right; split; [exact Hk' | now right]].
      * intros [[-> ->]|[Hk' [[= -> ->]|Hin]]];
          [right; now left | now left | right; right; now split].
Qed.

(** X15.  Once the enhanced monitor has a cursor, its query is the static
    filters, each as an equality, together with the identifier bound; a
    filter on [_id] itself is replaced by the bound, and no other filter is
    lost or added. *)
Theorem enhanced_query_is_filters_and_bound
  (ObjectId_from_datetime : Z -> Z) (m : monitor) (last : Z)
  (k : str) (c : condition) :
  last_check_time m = Some last ->
  NoDup (List.map fst (filters m)) ->
  (k, c) ∈ enhanced_query ObjectId_from_datetime m
  <-> (k = u "_id" /\ c = Gt (VObjectId (ObjectId_from_datetime last)))
      \/ (k <> u "_id" /\ exists v : value, c = Eq v /\ (k, v) ∈ filters m).
Proof.
  intros Hlast Hnd. unfold enhanced_query. rewrite Hlast.
  rewrite query_set_spec.
  - apply or_iff_compat_l, and_iff_compat_l.
    rewrite list_elem_of_fmap. split.
    + intros ([k' v] & [= -> ->] & Hin). now exists v.
    + intros (v & -> & Hin). now exists (k, v).
  - now rewrite List.map_map.
Qed.

Lemma enhanced_query_is_filters_and_bound_witness :
  let m := set_last_check_time (Some 5000000)
             (new_monitor EnhancedPollingMonitor main_filters) in
  (u "type", Eq (VStr (u "code"))) ∈ enhanced_query seconds_then_zeros m.
Proof.
  apply (enhanced_query_is_filters_and_bound seconds_then_zeros
           (set_last_check_time (Some 5000000)
              (new_monitor EnhancedPollingMonitor main_filters))
           5000000 (u "type") (Eq (VStr (u "code"))) eq_refl).
  - apply NoDup_singleton.
  - right. split; [vm_compute; discriminate|].
    exists (VStr (u "code")). split; [reflexivity | apply list_elem_of_here].
Defined.

(** ** The upload form and the monitor *)

Lemma drop_spaces_nil (s : str) :
  drop_spaces s = [] <-> forallb is_space s = true.
Proof.
  induction s as [|c s IH]; cbn; [tauto|].
  destruct (is_space c); cbn; [exact IH|]. split; discriminate.
Qed.

Lemma rstrip_nil (s : str) : rstrip s = [] <-> forallb is_space s = true.
Proof.
  unfold rstrip. rewrite <- (forallb_rev is_space s), <- drop_spaces_nil.
  split.
  - intros H. apply (f_equal (@rev char)) in H.
    now rewrite rev_involutive in H.
  - now intros ->.
Qed.

Lemma strip_nil (s : str) : strip s = [] <-> forallb is_space s = true.
Proof.
  unfold strip. rewrite rstrip_nil.
  destruct (drop_spaces_split s) as (ws & Hs & Hws).
  rewrite Hs at 2. rewrite forallb_app, Hws. reflexivity.
Qed.

Lemma strip_head (s : str) :
  match strip s with c :: _ => is_space c | [] => false end = false.
Proof.
  unfold strip. pose proof (drop_spaces_head s) as Hhead.
  destruct (rstrip_split (drop_spaces s)) as (ws & Hsplit & _).
  destruct (rstrip (drop_spaces s)) as [|c r]; [reflexivity|].
  rewrite Hsplit in Hhead. exact Hhead.
Qed.

Lemma linebreak_is_space (c : char) :
  is_linebreak c = true -> is_space c = true.
Proof.
  unfold is_linebreak. cbn [existsb]. rewrite !orb_true_iff.
  intros H. repeat destruct H as [H|H]; try discriminate;
    apply N.eqb_eq in H; subst c; reflexivity.
Qed.

Lemma splitlines_from_first (text cur : str) :
  cur <> [] ->
  exists (x : str) (more : list str),
    splitlines_from cur text = (rev cur ++ x) :: more.
Proof.
  revert cur. induction text as [|c text IH]; intros cur Hcur.
  - exists [], []. cbn. rewrite app_nil_r. now destruct cur.
  - cbn [splitlines_from]. destruct (is_linebreak c).
    + eexists [], _. rewrite app_nil_r. reflexivity.
    + destruct (IH (c :: cur)) as (x & more & ->); [discriminate|].
      exists (c :: x), more. cbn [rev]. now rewrite <- app_assoc.
Qed.

Lemma preserve_nonempty (c : char) (s : str) :
  is_space c = false -> preserve_code_formatting (c :: s) <> [].
Proof.
  intros Hc. rewrite preserve_is_normalize_spec.
  unfold normalize_spec, splitlines. cbn [splitlines_from].
  destruct (is_linebreak c) eqn:Hb;
    [apply linebreak_is_space in Hb; congruence|].
  destruct (splitlines_from_first s [c]) as (x & more & ->); [discriminate|].
  cbn [rev app List.map].
  assert (Hline : rstrip (c :: x) <> []).
  { rewrite rstrip_nil. cbn [forallb]. now rewrite Hc. }
  destruct (rstrip (c :: x)) as [|a r]; [contradiction|].
  destruct (List.map rstrip more); discriminate.
Qed.

(** X16.  The upload form stores a document exactly when, after stripping,
    name and code are both non-empty and the insertion succeeds: a name of
    space characters only is refused with "Name is required" whatever the
    code, and a code of space characters only with "Code is required". *)
Theorem upload_refuses_blank_fields (form : list (str * str))
  (clock1 clock2 : Z) (inserted_id : option Z) :
  let name := form_get form (u "name") in
  let code := form_get form (u "code") in
  let '(response, stored) := upload_code form clock1 clock2 inserted_id in
  (stored = None
   <-> forallb is_space name = true \/ forallb is_space code = true
       \/ inserted_id = None)
  /\ (response = BadRequest (u "Name is required")
      <-> forallb is_space name = true)
  /\ (response = BadRequest (u "Code is required")
      <-> forallb is_space name = false /\ forallb is_space code = true).
Proof.
  cbn zeta. unfold upload_code.
  pose proof (strip_nil (form_get form (u "name"))) as Hn.
  pose proof (strip_nil (form_get form (u "code"))) as Hc.
  destruct (strip (form_get form (u "name"))) as [|n ns].
  - assert (Hname : forallb is_space (form_get form (u "name")) = true)
      by now apply Hn.
    rewrite Hname. repeat split; auto; try discriminate.
    intros [? _]. discriminate.
  - assert (Hname : forallb is_space (form_get form (u "name")) = false).
    { destruct (forallb is_space (form_get form (u "name")));
        [|reflexivity]. now apply proj2 in Hn; specialize (Hn eq_refl). }
    rewrite Hname.
    destruct (strip (form_get form (u "code"))) as [|c cs].
    + assert (Hcode : forallb is_space (form_get form (u "code")) = true)
        by now apply Hc.
      rewrite Hcode. repeat split; auto; try discriminate.
    + assert (Hcode : forallb is_space (form_get form (u "code")) = false).
      { destruct (forallb is_space (form_get form (u "code")));
          [|reflexivity]. now apply proj2 in Hc; specialize (Hc eq_refl). }
      rewrite Hcode. destruct inserted_id as [id|].
      * repeat split; try discriminate.
        -- intros [?|[?|?]]; discriminate.
        -- intros [_ ?]. discriminate.
      * repeat split; auto; try discriminate.
        intros [_ ?]. discriminate.
Qed.

(** X17.  A document stored by the upload form always has a text for the
    monitor: extraction returns the normalised code, which is not empty, so
    [process_document] logs the document and then calls [pyperclip.copy]
    with that text (it never reports "no text"). *)
Theorem uploaded_snippet_is_delivered
  (py_repr : value -> str) (pyperclip_copy : nat -> str -> bool)
  (form : list (str * str)) (clock1 clock2 : Z) (inserted_id : option Z)
  (response : upload_response) (d : document) (m : monitor) :
  upload_code form clock1 clock2 inserted_id = (response, Some d) ->
  let text := preserve_code_formatting (strip (form_get form (u "code"))) in
  extract_text_content py_repr (items d) = Some text
  /\ text <> []
  /\ exists e : event,
       log (process_document py_repr pyperclip_copy d m)
       = log m ++ [Processing (_id d); e]
       /\ attempted_text e = Some text.
Proof.
  unfold upload_code.
  pose proof (strip_head (form_get form (u "code"))) as Hhead.
  destruct (strip (form_get form (u "name"))) as [|n ns]; [discriminate|].
  destruct (strip (form_get form (u "code"))) as [|c cs]; [discriminate|].
  destruct inserted_id as [id|]; [|discriminate].
  intros [= <- <-]. cbn zeta.
  assert (Hext : extract_text_content py_repr
                   (items {| _id := id;
                             fields := [(u "name", VStr (n :: ns));
                                        (u "code", VStr (c :: cs));
                                        (u "created_at", VDate clock1);
                                        (u "updated_at", VDate clock2)] |})
                 = Some (preserve_code_formatting (c :: cs))).
  { rewrite extract_unfold.
    change text_fields
      with ([u "text"; u "content"]
              ++ u "code" :: [u "message"; u "body"; u "data"; u "value";
                              u "snippet"]).
    rewrite first_text_field_skips by reflexivity.
    reflexivity. }
  pose proof (preserve_nonempty c cs Hhead) as Hne.
  split; [exact Hext|]. split; [exact Hne|].
  unfold process_document, enhanced_process_document, base_process_document,
    copy_to_clipboard.
  rewrite Hext.
  destruct (preserve_code_formatting (c :: cs)) as [|a t] eqn:Hp;
    [contradiction|].
  destruct (class m); cbn; destruct (pyperclip_copy _ _); cbn;
    rewrite <- app_assoc; cbn; eexists; split; reflexivity.
Qed.

Lemma uploaded_snippet_is_delivered_witness :
  upload_code sample_form 1 2 (Some 9)
  = (Uploaded 9,
     Some (doc 9 [(u "name", VStr (u "demo"));
                  (u "code", VStr (u "print(1)"));
                  (u "created_at", VDate 1); (u "updated_at", VDate 2)]))
  /\ extract_text_content plain_repr
       (items (doc 9 [(u "name", VStr (u "demo"));
                      (u "code", VStr (u "print(1)"));
                      (u "created_at", VDate 1); (u "updated_at", VDate 2)]))
     = Some (u "print(1)").
Proof.
  assert (H : upload_code sample_form 1 2 (Some 9)
              = (Uploaded 9,
                 Some (doc 9 [(u "name", VStr (u "demo"));
                              (u "code", VStr (u "print(1)"));
                              (u "created_at", VDate 1);
                              (u "updated_at", VDate 2)])))
    by (vm_compute; reflexivity).
  split; [exact H|].
  exact (proj1 (uploaded_snippet_is_delivered plain_repr always_ok
                  sample_form 1 2 (Some 9) _ _
                  (new_monitor EnhancedPollingMonitor []) H)).
Defined.
